(** * The upload-and-generate workflow of [src/App.jsx]

    A shallow embedding of the [App] component's state and of its event
    handlers ([handleFileChange], [handleDrop], [handleGenerate], the
    prompt's [onChange] and the error banner's [onClose]), and the
    properties of the workflow stated over it.

    The component's six [useState] cells are a record.  The handlers run in
    a small monad that threads the component state together with what the
    handlers touch outside of it: the browser's object-URL registry
    ([URL.createObjectURL]), the requests handed to [fetch], and the console.
    A handler either completes normally or throws, as in JavaScript. *)

From Stdlib Require Import String Ascii List Bool NArith Lia DecimalString.
Import ListNotations.
Open Scope string_scope.

Set Implicit Arguments.

(** ** Browser values *)

(** A [Blob]: a media type and bytes. *)
Record Blob := mkBlob { blob_type : string; blob_bytes : list Byte.byte }.

(** A [File] picked or dropped by the user: a [Blob] with a name. *)
Record File := mkFile { name : string; type : string; bytes : list Byte.byte }.

Definition blob_of_file (f : File) : Blob :=
  {| blob_type := type f; blob_bytes := bytes f |}.

(** The string returned by [URL.createObjectURL]; each call mints a new one,
    identified here by its position in the registry. *)
Inductive ObjectURL := BlobURL (id : nat).

(** A thrown JavaScript value ([Error], [TypeError], [DOMException], ...). *)
Record JsError := mkJsError { err_name : string; err_message : string }.

(** How a piece of code ends: normally with a value, or by throwing. *)
Inductive Completion (A : Type) :=
| Normal (a : A)
| Throw (e : JsError).
Arguments Normal {A} a.
Arguments Throw {A} e.

(** ** The request and the response *)

Inductive FormValue :=
| FileValue (f : File)
| TextValue (s : string).

(** [FormData]: entries in the order they were appended. *)
Definition FormData := list (string * FormValue).

Definition new_FormData : FormData := [].

Definition append (key : string) (v : FormValue) (fd : FormData) : FormData :=
  (fd ++ [(key, v)])%list.

(** The second argument of [fetch]; a field the caller leaves out is empty. *)
Record RequestInit := mkInit {
  method : string;
  headers : list (string * string);
  body : FormData
}.

(** One call of [fetch]. *)
Record Request := mkRequest { url : string; init : RequestInit }.

(** A [Response]: its status, and what reading its body gives.  Reading the
    body can itself fail (connection lost, stream aborted). *)
Record Response := mkResponse {
  status : N;
  text : Completion string;
  blob : Completion Blob
}.

(** [response.ok]: the status is in the range 200-299. *)
Definition ok (r : Response) : bool :=
  (200 <=? status r)%N && (status r <=? 299)%N.

(** What the network does with a request: the promise returned by [fetch]
    resolves with a response, or rejects. *)
Definition Backend := Request -> Completion Response.

(** ** The component state *)

Record State := mkState {
  uploadedImage : option ObjectURL;
  uploadedFile : option File;
  generatedImage : option ObjectURL;
  prompt : string;
  isLoading : bool;
  error : option string
}.

(** The values given to [useState]. *)
Definition initial_state : State :=
  {| uploadedImage := None; uploadedFile := None; generatedImage := None;
     prompt := ""; isLoading := false; error := None |}.

Record ConsoleEntry := mkEntry { label : string; logged : JsError }.

(** The component state and its surroundings.  [commits] holds the component
    state after every setter call, oldest first: each is a state that may
    be rendered. *)
Record Sys := mkSys {
  state : State;
  objectURLs : list Blob;
  network : list Request;
  console : list ConsoleEntry;
  commits : list State
}.

Definition initial_sys : Sys :=
  {| state := initial_state; objectURLs := []; network := []; console := [];
     commits := [] |}.

(** The blob an object URL stands for. *)
Definition resolve (w : Sys) (u : ObjectURL) : option Blob :=
  match u with BlobURL id => nth_error (objectURLs w) id end.

(** ** The handler monad *)

Definition M (A : Type) := Sys -> Completion A * Sys.

Definition ret {A} (a : A) : M A := fun w => (Normal a, w).

Definition bind {A B} (m : M A) (k : A -> M B) : M B :=
  fun w => match m w with
           | (Normal a, w') => k a w'
           | (Throw e, w') => (Throw e, w')
           end.

Definition throw {A} (e : JsError) : M A := fun w => (Throw e, w).

(** [await p] for a promise that is already settled. *)
Definition await {A} (p : Completion A) : M A := fun w => (p, w).

(** [try { body } catch (e) { handler } finally { fin }]: the handler runs
    when the body throws, [fin] runs in every case, and the completion is
    that of the body or of the handler unless [fin] itself throws. *)
Definition try_catch_finally {A}
    (body : M A) (handler : JsError -> M A) (fin : M unit) : M A :=
  fun w =>
    let '(r, w1) := match body w with
                    | (Normal a, w') => (Normal a, w')
                    | (Throw e, w') => handler e w'
                    end in
    match fin w1 with
    | (Normal _, w2) => (r, w2)
    | (Throw e, w2) => (Throw e, w2)
    end.

Declare Scope handler_scope.
Delimit Scope handler_scope with handler.
Notation "x <- m ;; k" := (bind m (fun x => k))
  (at level 61, m at next level, right associativity) : handler_scope.
Notation "m ;; k" := (bind m (fun _ => k))
  (at level 61, right associativity) : handler_scope.
Open Scope handler_scope.

(** The values the running handler closed over. *)
Definition closure : M State := fun w => (Normal (state w), w).

(** A setter: the new component state is committed. *)
Definition set_state (f : State -> State) : M unit :=
  fun w => let s := f (state w) in
           (Normal tt,
            {| state := s; objectURLs := objectURLs w; network := network w;
               console := console w; commits := (commits w ++ [s])%list |}).

Definition setUploadedImage (v : option ObjectURL) : M unit :=
  set_state (fun s =>
    {| uploadedImage := v; uploadedFile := uploadedFile s;
       generatedImage := generatedImage s; prompt := prompt s;
       isLoading := isLoading s; error := error s |}).

Definition setUploadedFile (v : option File) : M unit :=
  set_state (fun s =>
    {| uploadedImage := uploadedImage s; uploadedFile := v;
       generatedImage := generatedImage s; prompt := prompt s;
       isLoading := isLoading s; error := error s |}).

Definition setGeneratedImage (v : option ObjectURL) : M unit :=
  set_state (fun s =>
    {| uploadedImage := uploadedImage s; uploadedFile := uploadedFile s;
       generatedImage := v; prompt := prompt s;
       isLoading := isLoading s; error := error s |}).

Definition setPrompt (v : string) : M unit :=
  set_state (fun s =>
    {| uploadedImage := uploadedImage s; uploadedFile := uploadedFile s;
       generatedImage := generatedImage s; prompt := v;
       isLoading := isLoading s; error := error s |}).

Definition setIsLoading (v : bool) : M unit :=
  set_state (fun s =>
    {| uploadedImage := uploadedImage s; uploadedFile := uploadedFile s;
       generatedImage := generatedImage s; prompt := prompt s;
       isLoading := v; error := error s |}).

Definition setError (v : option string) : M unit :=
  set_state (fun s =>
    {| uploadedImage := uploadedImage s; uploadedFile := uploadedFile s;
       generatedImage := generatedImage s; prompt := prompt s;
       isLoading := isLoading s; error := v |}).

(** [URL.createObjectURL]: registers the blob and returns a new URL for it.
    Nothing in the component revokes a URL. *)
Definition createObjectURL (b : Blob) : M ObjectURL :=
  fun w => (Normal (BlobURL (length (objectURLs w))),
            {| state := state w; objectURLs := (objectURLs w ++ [b])%list;
               network := network w; console := console w;
               commits := commits w |}).

(** The request leaves for the network. *)
Definition send (req : Request) : M unit :=
  fun w => (Normal tt,
            {| state := state w; objectURLs := objectURLs w;
               network := (network w ++ [req])%list; console := console w;
               commits := commits w |}).

(** [await fetch(u, i)]: the request goes out, and the backend settles the
    promise. *)
Definition fetch (backend : Backend) (u : string) (i : RequestInit)
    : M Response :=
  let req := {| url := u; init := i |} in
  send req ;; await (backend req).

(** [console.error(label, e)]. *)
Definition console_error (l : string) (e : JsError) : M unit :=
  fun w => (Normal tt,
            {| state := state w; objectURLs := objectURLs w;
               network := network w;
               console := (console w ++ [{| label := l; logged := e |}])%list;
               commits := commits w |}).

(** [new Error(message)]. *)
Definition Error (message : string) : JsError :=
  {| err_name := "Error"; err_message := message |}.

(** A number inside a template literal. *)
Definition number_to_string (n : N) : string :=
  NilEmpty.string_of_uint (N.to_uint n).

(** ** The handlers *)

(** [handleFileChange], lines 23-36.  The candidate is [None] when the
    caller passes [undefined] (a file list with no first entry). *)
Definition handleFileChange (file : option File) : M unit :=
  let reject :=
    setError (Some "Please upload a valid image file.") ;;
    setUploadedImage None ;;
    setUploadedFile None in
  match file with
  | Some f =>
      if String.prefix "image/" (type f) then
        setUploadedFile (Some f) ;;
        u <- createObjectURL (blob_of_file f) ;;
        setUploadedImage (Some u) ;;
        setGeneratedImage None ;;
        setError None
      else reject
  | None => reject
  end.

(** [handleDrop], lines 43-49: the first dropped file, when there is one. *)
Definition handleDrop (files : list File) : M unit :=
  match files with
  | f :: _ => handleFileChange (Some f)
  | [] => ret tt
  end.

(** The file input's [onChange], line 146: [e.target.files[0]]. *)
Definition onFileInputChange (files : list File) : M unit :=
  handleFileChange (hd_error files).

(** The prompt's [onChange], line 157. *)
Definition onPromptChange (value : string) : M unit := setPrompt value.

(** The error banner's [onClose], line 103. *)
Definition onClose : M unit := setError None.

Definition API_URL : string := "http://localhost:8080/api/v1/generate".

(** [handleGenerate], lines 57-100. *)
Definition handleGenerate (backend : Backend) : M unit :=
  c <- closure ;;
  match uploadedFile c with
  | None => setError (Some "Please upload an image first!")
  | Some file =>
      setIsLoading true ;;
      setGeneratedImage None ;;
      setError None ;;
      let formData :=
        append "prompt" (TextValue (prompt c))
          (append "image" (FileValue file) new_FormData) in
      try_catch_finally
        (response <- fetch backend API_URL
                       {| method := "POST"; headers := []; body := formData |} ;;
         (if negb (ok response) then
            errorText <- await (text response) ;;
            throw (Error ("Network response was not ok. Status: "
                          ++ number_to_string (status response)
                          ++ ". Message: " ++ errorText))
          else ret tt) ;;
         resultBlob <- await (blob response) ;;
         u <- createObjectURL resultBlob ;;
         setGeneratedImage (Some u))
        (fun e =>
           console_error "Error generating image:" e ;;
           setError (Some "Failed to generate image. Please ensure the backend is running and check the console."))
        (setIsLoading false)
  end.

(** ** Reading the workflow off the state *)

(** The workflow status of the specification.  The component keeps no such
    field: it is read off the loading flag, the result and the error, tested
    in the order in which the result pane tests them (lines 168-172). *)
Inductive WorkflowStatus := Idle | Submitting | Succeeded | Failed.

Definition workflowStatus (s : State) : WorkflowStatus :=
  if isLoading s then Submitting
  else match generatedImage s, error s with
       | Some _, _ => Succeeded
       | None, Some _ => Failed
       | None, None => Idle
       end.

Definition WorkflowStatus_eqb (a b : WorkflowStatus) : bool :=
  match a, b with
  | Idle, Idle | Submitting, Submitting
  | Succeeded, Succeeded | Failed, Failed => true
  | _, _ => false
  end.

(** The status changes along a list of states: runs of one status count
    once. *)
Fixpoint transitions (l : list WorkflowStatus) : list WorkflowStatus :=
  match l with
  | a :: ((b :: _) as t) =>
      if WorkflowStatus_eqb a b then transitions t else a :: transitions t
  | _ => l
  end.

(** Where a run of handler [m] from [w] ends. *)
Definition after {A} (m : M A) (w : Sys) : Sys := snd (m w).

(** How it ends. *)
Definition completion {A} (m : M A) (w : Sys) : Completion A := fst (m w).

(** Every point of a run of [m] from [w]: the state it starts in, then the
    state after each of its setter calls. *)
Definition points {A} (m : M A) (w : Sys) : list State :=
  state w :: skipn (length (commits w)) (commits (after m w)).

(** The one request [handleGenerate] sends for a staged file and a prompt. *)
Definition generate_request (file : File) (p : string) : Request :=
  {| url := API_URL;
     init := {| method := "POST"; headers := [];
                body := [("image", FileValue file); ("prompt", TextValue p)] |} |}.

(** The path of a URL: what follows the scheme and the authority. *)
Fixpoint after_scheme (u : string) : option string :=
  match u with
  | String ":" (String "/" (String "/" r)) => Some r
  | String _ r => after_scheme r
  | EmptyString => None
  end.

Fixpoint from_slash (u : string) : string :=
  match u with
  | String c r => if Ascii.eqb c "/" then u else from_slash r
  | EmptyString => EmptyString
  end.

Definition url_path (u : string) : string :=
  match after_scheme u with
  | Some r => from_slash r
  | None => u
  end.

(** The ways a request fails: [fetch] rejects, the status is not a success
    status, or the body of a success response cannot be read. *)
Inductive request_fails : Completion Response -> Prop :=
| fetch_rejects e : request_fails (Throw e)
| status_not_ok r : ok r = false -> request_fails (Normal r)
| body_unreadable r e :
    ok r = true -> blob r = Throw e -> request_fails (Normal r).

(** ** Sequences of user operations *)

Inductive Op :=
| FileIntake (candidate : option File)
| Generate (backend : Backend)
| Dismiss
| TypePrompt (value : string).

Definition handler (o : Op) : M unit :=
  match o with
  | FileIntake c => handleFileChange c
  | Generate backend => handleGenerate backend
  | Dismiss => onClose
  | TypePrompt v => onPromptChange v
  end.

(** The operations run one after the other, each to completion. *)
Definition run (ops : list Op) (w : Sys) : Sys :=
  fold_left (fun w o => after (handler o) w) ops w.

(** At most one of the result and the error is there, unless a request is
    being submitted. *)
Definition result_xor_error (s : State) : Prop :=
  isLoading s = false -> generatedImage s = None \/ error s = None.

(** [handleFileChange] takes the candidate as an image. *)
Definition accepted (c : option File) : bool :=
  match c with
  | Some f => String.prefix "image/" (type f)
  | None => false
  end.

Definition has_result (s : State) : bool :=
  match generatedImage s with Some _ => true | None => false end.

(** No file is rejected while a result is there. *)
Fixpoint no_rejection_over_result (ops : list Op) (w : Sys) : bool :=
  match ops with
  | [] => true
  | o :: rest =>
      match o with
      | FileIntake c => accepted c || negb (has_result (state w))
      | _ => true
      end && no_rejection_over_result rest (after (handler o) w)
  end.

(** The message shown when a request fails. *)
Definition generic_message : string :=
  "Failed to generate image. Please ensure the backend is running and check the console.".

(** The staged file, the preview and the prompt of [s] are those of [s0]. *)
Definition same_staging (s0 s : State) : Prop :=
  uploadedFile s = uploadedFile s0
  /\ uploadedImage s = uploadedImage s0
  /\ prompt s = prompt s0.

(** What holds between operations when no file is rejected over a result:
    nothing is being submitted, at most one of the result and the error is
    there, and a result is there only with a staged file. *)
Definition settled (s : State) : Prop :=
  isLoading s = false
  /\ (generatedImage s = None \/ error s = None)
  /\ (uploadedFile s = None -> generatedImage s = None).

(** ** The call suspended at the request

    [handleGenerate] is an [async] function: it is suspended at
    [await fetch(...)] and at the [await] of the body, and other handlers
    can run in between.  It calls no setter between the two, so for the
    component state it has one suspension: what runs up to the call of
    [fetch], and what runs once the response and its body are there. *)

(** Lines 57-80, up to the call of [fetch]: the request sent, if any. *)
Definition handleGenerate_start : M (option Request) :=
  c <- closure ;;
  match uploadedFile c with
  | None => setError (Some "Please upload an image first!") ;; ret None
  | Some file =>
      setIsLoading true ;;
      setGeneratedImage None ;;
      setError None ;;
      let formData :=
        append "prompt" (TextValue (prompt c))
          (append "image" (FileValue file) new_FormData) in
      let req := {| url := API_URL;
                    init := {| method := "POST"; headers := [];
                               body := formData |} |} in
      send req ;;
      ret (Some req)
  end.

(** Lines 76-99, from the moment the promise of [fetch] is settled. *)
Definition handleGenerate_resume (settled : Completion Response) : M unit :=
  try_catch_finally
    (response <- await settled ;;
     (if negb (ok response) then
        errorText <- await (text response) ;;
        throw (Error ("Network response was not ok. Status: "
                      ++ number_to_string (status response)
                      ++ ". Message: " ++ errorText))
      else ret tt) ;;
     resultBlob <- await (blob response) ;;
     u <- createObjectURL resultBlob ;;
     setGeneratedImage (Some u))
    (fun e =>
       console_error "Error generating image:" e ;;
       setError (Some "Failed to generate image. Please ensure the backend is running and check the console."))
    (setIsLoading false).

(** What happens to the page: the user acts, or the network settles a
    request that is in flight. *)
Inductive Event :=
| Intake (candidate : option File)
| Click
| Settle (settled : Completion Response)
| Close
| Typing (value : string).

(** The page while requests may be in flight. *)
Record Live := mkLive { sys : Sys; pending : nat }.

Definition initial_live : Live := {| sys := initial_sys; pending := 0 |}.

Definition react (e : Event) (l : Live) : Live :=
  match e with
  | Intake c =>
      {| sys := after (handleFileChange c) (sys l); pending := pending l |}
  | Click =>
      match handleGenerate_start (sys l) with
      | (Normal (Some _), w) => {| sys := w; pending := S (pending l) |}
      | (_, w) => {| sys := w; pending := pending l |}
      end
  | Settle o =>
      match pending l with
      | O => l
      | S n => {| sys := after (handleGenerate_resume o) (sys l); pending := n |}
      end
  | Close => {| sys := after onClose (sys l); pending := pending l |}
  | Typing v => {| sys := after (onPromptChange v) (sys l); pending := pending l |}
  end.

Definition play (evs : list Event) (l : Live) : Live :=
  fold_left (fun l e => react e l) evs l.

(** The discipline the page keeps when it is driven through its controls,
    and the one it leaves to the user: the trigger is not clicked while a
    request is in flight (it is disabled then, line 116), and no file is
    rejected while a result is there or a request is in flight. *)
Fixpoint disciplined (evs : list Event) (l : Live) : bool :=
  match evs with
  | [] => true
  | e :: rest =>
      match e with
      | Intake c =>
          accepted c
          || (negb (has_result (state (sys l)))
              && negb (isLoading (state (sys l))))
      | Click => negb (isLoading (state (sys l)))
      | _ => true
      end && disciplined rest (react e l)
  end.

(** What holds of the page under the discipline: either nothing is in
    flight and the state is settled, or one request is in flight, the
    loading flag is on, a file is staged, and neither a result nor an error
    is there. *)
Definition in_order (l : Live) : Prop :=
  (pending l = 0 /\ settled (state (sys l)))
  \/ (pending l = 1
      /\ isLoading (state (sys l)) = true
      /\ generatedImage (state (sys l)) = None
      /\ error (state (sys l)) = None
      /\ uploadedFile (state (sys l)) <> None).

(** ** Sample inputs *)

Definition cat_png : File :=
  {| name := "cat.png"; type := "image/png";
     bytes := [Byte.x89; Byte.x50; Byte.x4e; Byte.x47] |}.

Definition notes_txt : File :=
  {| name := "notes.txt"; type := "text/plain"; bytes := [Byte.x68; Byte.x69] |}.

Definition payload : Blob :=
  {| blob_type := "image/png";
     blob_bytes := [Byte.x00; Byte.x01; Byte.x02; Byte.x03; Byte.x04;
                    Byte.x05; Byte.x06; Byte.x07; Byte.x08; Byte.x09] |}.

(** A backend answering 200 with a ten-byte payload. *)
Definition backend_200 : Backend :=
  fun _ => Normal {| status := 200; text := Normal ""; blob := Normal payload |}.

(** A backend answering 500 with a text body. *)
Definition backend_500 : Backend :=
  fun _ => Normal {| status := 500; text := Normal "boom";
                     blob := Normal {| blob_type := "text/plain"; blob_bytes := [] |} |}.

(** A backend that cannot be reached. *)
Definition backend_down : Backend :=
  fun _ => Throw {| err_name := "TypeError"; err_message := "Failed to fetch" |}.

(** The state once [cat.png] is staged and a prompt typed. *)
Definition staged_sys : Sys :=
  run [FileIntake (Some cat_png); TypePrompt "ghibli style"] initial_sys.

(** The state in which a [handleGenerate] call answered with 500 leaves the
    component: the file still staged, the fixed error shown. *)
Definition failed_sys : Sys := after (handleGenerate backend_500) staged_sys.

(** ** The view

    What [App] returns (lines 101-182), as far as it depends on the state:
    the error banner, the trigger in the header, the upload pane, the
    prompt field and the result pane. *)

Inductive UploaderPane :=
| PreviewImage (src : ObjectURL)
| UploadControls.

Inductive ResultPane :=
| SpinnerPane
| ResultImage (src : ObjectURL)
| PlaceholderText.

Record View := mkView {
  banner : option string;
  create_disabled : bool;
  create_label : string;
  uploader : UploaderPane;
  textarea_value : string;
  result_pane : ResultPane
}.

(** A string in a condition: every string but the empty one counts as
    true. *)
Definition truthy (s : string) : bool :=
  match s with EmptyString => false | String _ _ => true end.

Definition render (s : State) : View :=
  {| (* line 103: error && <ErrorMessage message={error} .../> *)
     banner := match error s with
               | Some m => if truthy m then Some m else None
               | None => None
               end;
     (* line 116: disabled={isLoading || !uploadedFile} *)
     create_disabled := isLoading s
                        || match uploadedFile s with
                           | Some _ => false
                           | None => true
                           end;
     (* line 117 *)
     create_label := if isLoading s then "Creating..." else "Create";
     (* lines 133-151: the preview, or the browse button and the file input *)
     uploader := match uploadedImage s with
                 | Some u => PreviewImage u
                 | None => UploadControls
                 end;
     (* line 156 *)
     textarea_value := prompt s;
     (* lines 168-176 *)
     result_pane := if isLoading s then SpinnerPane
                    else match generatedImage s with
                         | Some u => ResultImage u
                         | None => PlaceholderText
                         end |}.

(** ** Drag events and the browse button *)

Record DragEvent := mkDrag {
  dataTransfer_files : list File;
  defaultPrevented : bool
}.

Definition preventDefault (e : DragEvent) : DragEvent :=
  {| dataTransfer_files := dataTransfer_files e; defaultPrevented := true |}.

(** [handleDragOver], lines 39-41; the event is returned as the handler
    leaves it. *)
Definition handleDragOver (e : DragEvent) : M DragEvent :=
  ret (preventDefault e).

(** [handleDrop] on the event itself, lines 43-49. *)
Definition handleDropEvent (e : DragEvent) : M DragEvent :=
  let e' := preventDefault e in
  handleDrop (dataTransfer_files e') ;;
  ret e'.

(** [onBrowseClick], lines 52-54: [fileInputRef.current.click()].  The ref
    holds the file input while the input is mounted, which is when the
    upload pane shows its controls, and [null] otherwise; calling a method
    on [null] throws a [TypeError]. *)
Definition onBrowseClick : M unit :=
  c <- closure ;;
  match uploader (render c) with
  | UploadControls => ret tt
  | PreviewImage _ =>
      throw {| err_name := "TypeError";
               err_message := "Cannot read properties of null" |}
  end.

(** ** The page driven through its controls *)

Inductive Gesture :=
| DragOver (e : DragEvent)
| Drop (e : DragEvent)
| ChooseFiles (files : list File)
| PressBrowse
| PressCreate
| PressClose
| EditPrompt (value : string)
| Respond (settled : Completion Response).

(** The handler a gesture runs.  Pressing the trigger runs [handleGenerate]
    up to its request; the answer of the network runs the rest. *)
Definition gesture_handler (g : Gesture) : M unit :=
  match g with
  | DragOver e => handleDragOver e ;; ret tt
  | Drop e => handleDropEvent e ;; ret tt
  | ChooseFiles files => onFileInputChange files
  | PressBrowse => onBrowseClick
  | PressCreate => handleGenerate_start ;; ret tt
  | PressClose => onClose
  | EditPrompt v => onPromptChange v
  | Respond o => handleGenerate_resume o
  end.

(** The gestures the view offers: a control that is not rendered or is
    disabled receives no event, and the network answers only a request that
    is in flight. *)
Definition offered (l : Live) (g : Gesture) : bool :=
  let v := render (state (sys l)) in
  match g with
  | DragOver _ | Drop _ | EditPrompt _ => true
  | ChooseFiles _ | PressBrowse =>
      match uploader v with UploadControls => true | PreviewImage _ => false end
  | PressCreate => negb (create_disabled v)
  | PressClose => match banner v with Some _ => true | None => false end
  | Respond _ => match pending l with O => false | S _ => true end
  end.

Definition ui_react (g : Gesture) (l : Live) : Live :=
  if offered l g then
    match g with
    | PressCreate => react Click l
    | Respond o => react (Settle o) l
    | _ => {| sys := after (gesture_handler g) (sys l); pending := pending l |}
    end
  else l.

Definition ui_play (gs : list Gesture) (l : Live) : Live :=
  fold_left (fun l g => ui_react g l) gs l.

(** ** What every handler keeps *)

(** The systems the handlers can produce from the initial one, in any
    order and with the two halves of [handleGenerate] taken apart. *)
Inductive reachable : Sys -> Prop :=
| reach_initial : reachable initial_sys
| reach_file c w : reachable w -> reachable (after (handleFileChange c) w)
| reach_start w : reachable w -> reachable (after handleGenerate_start w)
| reach_resume o w : reachable w -> reachable (after (handleGenerate_resume o) w)
| reach_close w : reachable w -> reachable (after onClose w)
| reach_prompt v w : reachable w -> reachable (after (onPromptChange v) w).

(** The preview is the staged file: both are absent, or the preview URL
    stands for the bytes of the staged file. *)
Definition preview_of_staged (w : Sys) : Prop :=
  match uploadedFile (state w), uploadedImage (state w) with
  | Some f, Some u => resolve w u = Some (blob_of_file f)
  | None, None => True
  | _, _ => False
  end.

(** The result, when there is one, is a URL that stands for a blob, and it
    is not the preview URL. *)
Definition result_is_live (w : Sys) : Prop :=
  match generatedImage (state w) with
  | Some u => (exists b, resolve w u = Some b)
              /\ uploadedImage (state w) <> Some u
  | None => True
  end.

(** The error is absent or one of the three messages of the source. *)
Definition known_error (e : option string) : Prop :=
  e = None
  \/ e = Some "Please upload a valid image file."
  \/ e = Some "Please upload an image first!"
  \/ e = Some generic_message.

(** A request as [handleGenerate] builds them. *)
Definition well_formed_request (req : Request) : Prop :=
  exists file p, req = generate_request file p.

(** What the controls keep: zero or one request is in flight, the loading
    flag tells which, and the guard of [handleGenerate] was never taken. *)
Definition controlled (l : Live) : Prop :=
  ((pending l = 0 /\ isLoading (state (sys l)) = false)
   \/ (pending l = 1 /\ isLoading (state (sys l)) = true))
  /\ error (state (sys l)) <> Some "Please upload an image first!".

(** ** Auxiliary facts *)

Lemma skipn_own_length (A : Type) (l t : list A) :
  skipn (length l) (l ++ t) = t.
Proof. induction l as [|a l IH]; [reflexivity | exact IH]. Qed.

Lemma nth_error_snoc (A : Type) (l : list A) (a : A) :
  nth_error (l ++ [a]) (length l) = Some a.
Proof. induction l as [|b l IH]; [reflexivity | exact IH]. Qed.

Lemma nth_error_own_length (A : Type) (l : list A) :
  nth_error l (length l) = None.
Proof. induction l as [|b l IH]; [reflexivity | exact IH]. Qed.

(** Opens a system into its cells, so that the setters compute. *)
Ltac expose w :=
  let ui := fresh "ui" in let uf := fresh "uf" in let gi := fresh "gi" in
  let p := fresh "p" in let ld := fresh "ld" in let er := fresh "er" in
  let urls := fresh "urls" in let net := fresh "net" in
  let con := fresh "con" in let com := fresh "com" in
  destruct w as [[ui uf gi p ld er] urls net con com];
  cbn [state uploadedImage uploadedFile generatedImage prompt isLoading error
       objectURLs network console commits] in *.

(** Reads the cells of the records built so far. *)
Ltac cells :=
  cbn [state uploadedImage uploadedFile generatedImage prompt isLoading error
       objectURLs network console commits fst snd app negb].

(** Runs the setters and the monad's plumbing. *)
Ltac run_handler :=
  unfold points; unfold after, completion;
  unfold handleGenerate, handleFileChange, onClose, onPromptChange;
  unfold fetch;
  unfold try_catch_finally, bind, ret, throw, await, closure, send,
    console_error, createObjectURL, setUploadedImage, setUploadedFile,
    setGeneratedImage, setPrompt, setIsLoading, setError, set_state,
    append, new_FormData;
  cells.

(** Brings the commits of a run into the form [old ++ new]. *)
Ltac new_commits :=
  rewrite <- ?app_assoc; cbn [app]; rewrite ?skipn_own_length.

(** Splits a property of every listed state into one goal per state. *)
Ltac each_point :=
  repeat (apply Forall_cons; [cells|]); try apply Forall_nil.

(** The cases of a [handleGenerate] call once a file is staged. *)
Ltac generate_cases backend :=
  match goal with
  | |- context [backend ?req] =>
      let r := fresh "r" in let e := fresh "e" in
      let E := fresh "E" in let Ok := fresh "Ok" in
      let B := fresh "B" in let T := fresh "T" in
      destruct (backend req) as [r|e] eqn:E;
      [ destruct (ok r) eqn:Ok; cells;
        [ destruct (blob r) eqn:B | destruct (text r) eqn:T ] | ];
      cells
  end.

(** ** The entry points of file intake *)

(** A drop hands its first file to [handleFileChange]; a drop that carries
    no file does nothing. *)
Lemma handleDrop_first (f : File) (rest : list File) :
  handleDrop (f :: rest) = handleFileChange (Some f).
Proof. reflexivity. Qed.

Lemma handleDrop_no_file (w : Sys) : handleDrop [] w = (Normal tt, w).
Proof. reflexivity. Qed.

(** A change of the file input that carries no file is handled as a
    rejection. *)
Lemma onFileInputChange_no_file :
  onFileInputChange [] = handleFileChange None.
Proof. reflexivity. Qed.

(** Every way a request can end is a success with a readable body or one of
    the failures. *)
Lemma succeeds_or_fails (o : Completion Response) :
  (exists r b, o = Normal r /\ ok r = true /\ blob r = Normal b)
  \/ request_fails o.
Proof.
  destruct o as [r|e]; [|right; constructor].
  destruct (ok r) eqn:Ok; [|right; apply status_not_ok; exact Ok].
  destruct (blob r) as [b|e] eqn:B.
  - left. exists r, b. auto.
  - right. apply body_unreadable with e; assumption.
Qed.

(** ** File intake *)

(** C2: a candidate whose media type does not start with [image/], or no
    candidate at all, makes [handleFileChange] set the error to the fixed
    validation message and leaves the staged file and the staged preview
    empty.  The result, the prompt and the loading flag are as before. *)
Theorem handleFileChange_rejects (c : option File) (w : Sys) :
  match c with
  | Some f => String.prefix "image/" (type f) = false
  | None => True
  end ->
  let w' := after (handleFileChange c) w in
  error (state w') = Some "Please upload a valid image file."
  /\ uploadedFile (state w') = None
  /\ uploadedImage (state w') = None
  /\ generatedImage (state w') = generatedImage (state w)
  /\ prompt (state w') = prompt (state w)
  /\ isLoading (state w') = isLoading (state w).
Proof.
  intros H. expose w. unfold handleFileChange; cbv zeta.
  destruct c as [f|]; [rewrite H|]; run_handler; repeat split.
Qed.

Lemma handleFileChange_rejects_witness :
  let w' := after (handleFileChange (Some notes_txt)) staged_sys in
  error (state w') = Some "Please upload a valid image file."
  /\ uploadedFile (state w') = None
  /\ uploadedImage (state w') = None
  /\ generatedImage (state w') = generatedImage (state staged_sys)
  /\ prompt (state w') = prompt (state staged_sys)
  /\ isLoading (state w') = isLoading (state staged_sys).
Proof.
  apply (handleFileChange_rejects (Some notes_txt) staged_sys). reflexivity.
Defined.

(** C3: a candidate whose media type starts with [image/] is stored as the
    staged file, a new object URL standing for its bytes becomes the
    preview, and the result and the error are empty afterwards, whatever
    they were. *)
Theorem handleFileChange_accepts (f : File) (w : Sys) :
  String.prefix "image/" (type f) = true ->
  let w' := after (handleFileChange (Some f)) w in
  let u := BlobURL (length (objectURLs w)) in
  uploadedFile (state w') = Some f
  /\ uploadedImage (state w') = Some u
  /\ resolve w' u = Some (blob_of_file f)
  /\ resolve w u = None
  /\ generatedImage (state w') = None
  /\ error (state w') = None.
Proof.
  intros H. expose w. unfold handleFileChange; cbv zeta. rewrite H. run_handler.
  unfold resolve; cbn [objectURLs].
  rewrite nth_error_snoc, nth_error_own_length. repeat split.
Qed.

Lemma handleFileChange_accepts_witness :
  let w := after (handleGenerate backend_500) staged_sys in
  let w' := after (handleFileChange (Some cat_png)) w in
  let u := BlobURL (length (objectURLs w)) in
  uploadedFile (state w') = Some cat_png
  /\ uploadedImage (state w') = Some u
  /\ resolve w' u = Some (blob_of_file cat_png)
  /\ resolve w u = None
  /\ generatedImage (state w') = None
  /\ error (state w') = None.
Proof.
  apply (handleFileChange_accepts cat_png
           (after (handleGenerate backend_500) staged_sys)).
  reflexivity.
Defined.

(** ** Dismissing the error *)

(** C8, as amended: when an error is shown, closing the banner empties the
    error and changes no other cell: the loading flag, the staged file, the
    preview, the prompt and the result are as before, and so are the object
    URLs, the requests sent and the console.  The status read off the cells
    is as before when it is [Submitting] or [Succeeded]; a [Failed] status
    becomes [Idle], since only the error tells the two apart. *)
Theorem onClose_clears_only_error (w : Sys) :
  error (state w) <> None ->
  let w' := after onClose w in
  state w' =
    {| uploadedImage := uploadedImage (state w);
       uploadedFile := uploadedFile (state w);
       generatedImage := generatedImage (state w);
       prompt := prompt (state w);
       isLoading := isLoading (state w);
       error := None |}
  /\ objectURLs w' = objectURLs w
  /\ network w' = network w
  /\ console w' = console w
  /\ (workflowStatus (state w) <> Failed ->
      workflowStatus (state w') = workflowStatus (state w))
  /\ (workflowStatus (state w) = Failed -> workflowStatus (state w') = Idle).
Proof.
  intros H. expose w. run_handler. unfold workflowStatus.
  cbn [isLoading generatedImage error].
  repeat split; destruct ld, gi, er; congruence.
Qed.

Lemma onClose_clears_only_error_witness :
  let w := failed_sys in
  let w' := after onClose w in
  state w' =
    {| uploadedImage := uploadedImage (state w);
       uploadedFile := uploadedFile (state w);
       generatedImage := generatedImage (state w);
       prompt := prompt (state w);
       isLoading := isLoading (state w);
       error := None |}
  /\ objectURLs w' = objectURLs w
  /\ network w' = network w
  /\ console w' = console w
  /\ (workflowStatus (state w) <> Failed ->
      workflowStatus (state w') = workflowStatus (state w))
  /\ (workflowStatus (state w) = Failed -> workflowStatus (state w') = Idle).
Proof.
  apply (onClose_clears_only_error failed_sys). discriminate.
Defined.

(** C8 as stated fails: after a failed request the error is shown and the
    status is [Failed]; closing the banner gives back, cell for cell, the
    state the request started from, whose status is [Idle]. *)
Lemma onClose_changes_status :
  ~ (error (state failed_sys) <> None ->
     workflowStatus (state (after onClose failed_sys))
     = workflowStatus (state failed_sys)).
Proof.
  intros H. assert (E : error (state failed_sys) <> None) by discriminate.
  specialize (H E). vm_compute in H. discriminate.
Qed.

(** The failure does not hang on the order in which [workflowStatus] tests
    the cells: no reading of a status off the component state can call the
    state before the request [Idle], the state after its failure [Failed],
    and be unchanged by closing the banner. *)
Lemma no_status_survives_onClose (st : State -> WorkflowStatus) :
  st (state staged_sys) = Idle ->
  st (state failed_sys) = Failed ->
  st (state (after onClose failed_sys)) <> st (state failed_sys).
Proof.
  intros HI HF.
  change (state (after onClose failed_sys)) with (state staged_sys).
  rewrite HI, HF. discriminate.
Qed.

(** ** Generating *)

(** C4: with no file staged, [handleGenerate] sends no request and at once,
    as its only step, sets the error to the validation message; the staged
    preview, the prompt, the result and the loading flag are as before. *)
Theorem handleGenerate_without_file (backend : Backend) (w : Sys) :
  uploadedFile (state w) = None ->
  let w' := after (handleGenerate backend) w in
  network w' = network w
  /\ state w' =
       {| uploadedImage := uploadedImage (state w);
          uploadedFile := None;
          generatedImage := generatedImage (state w);
          prompt := prompt (state w);
          isLoading := isLoading (state w);
          error := Some "Please upload an image first!" |}
  /\ points (handleGenerate backend) w = [state w; state w']
  /\ objectURLs w' = objectURLs w
  /\ console w' = console w
  /\ completion (handleGenerate backend) w = Normal tt.
Proof.
  intros H. expose w. subst. run_handler. new_commits. repeat split.
Qed.

Lemma handleGenerate_without_file_witness :
  let w := initial_sys in
  let w' := after (handleGenerate backend_200) w in
  network w' = network w
  /\ state w' =
       {| uploadedImage := uploadedImage (state w);
          uploadedFile := None;
          generatedImage := generatedImage (state w);
          prompt := prompt (state w);
          isLoading := isLoading (state w);
          error := Some "Please upload an image first!" |}
  /\ points (handleGenerate backend_200) w = [state w; state w']
  /\ objectURLs w' = objectURLs w
  /\ console w' = console w
  /\ completion (handleGenerate backend_200) w = Normal tt.
Proof.
  apply (handleGenerate_without_file backend_200 initial_sys). reflexivity.
Defined.

(** C9: with a file staged, [handleGenerate] sends one request, whatever the
    backend does with it: a POST to the fixed URL, whose path is
    [/api/v1/generate], with no headers and a form body of exactly two
    entries, the staged file under [image] and the prompt under [prompt]. *)
Theorem handleGenerate_request (backend : Backend) (w : Sys) (file : File) :
  uploadedFile (state w) = Some file ->
  exists req : Request,
    network (after (handleGenerate backend) w) = (network w ++ [req])%list
    /\ req = generate_request file (prompt (state w))
    /\ url req = "http://localhost:8080/api/v1/generate"
    /\ url_path (url req) = "/api/v1/generate"
    /\ method (init req) = "POST"
    /\ headers (init req) = []
    /\ body (init req) =
         [("image", FileValue file); ("prompt", TextValue (prompt (state w)))].
Proof.
  intros H. expose w. subst.
  exists (generate_request file p). split; [|repeat split].
  run_handler. generate_cases backend; reflexivity.
Qed.

Lemma handleGenerate_request_witness :
  exists req : Request,
    network (after (handleGenerate backend_down) staged_sys)
    = (network staged_sys ++ [req])%list
    /\ req = generate_request cat_png (prompt (state staged_sys))
    /\ url req = "http://localhost:8080/api/v1/generate"
    /\ url_path (url req) = "/api/v1/generate"
    /\ method (init req) = "POST"
    /\ headers (init req) = []
    /\ body (init req) =
         [("image", FileValue cat_png);
          ("prompt", TextValue (prompt (state staged_sys)))].
Proof.
  apply (handleGenerate_request backend_down staged_sys (file := cat_png)).
  reflexivity.
Defined.

(** C10: with a file staged, [handleGenerate] leaves the staged file, the
    preview URL and the prompt as they were, whatever the outcome: they are
    the same when the call completes, and at every point of it. *)
Theorem handleGenerate_keeps_staging (backend : Backend) (w : Sys) (file : File) :
  uploadedFile (state w) = Some file ->
  same_staging (state w) (state (after (handleGenerate backend) w))
  /\ Forall (same_staging (state w)) (points (handleGenerate backend) w).
Proof.
  intros H. expose w. subst. run_handler.
  generate_cases backend; new_commits;
    (split; [|each_point]); repeat split.
Qed.

Lemma handleGenerate_keeps_staging_witness :
  same_staging (state staged_sys)
    (state (after (handleGenerate backend_200) staged_sys))
  /\ Forall (same_staging (state staged_sys))
       (points (handleGenerate backend_200) staged_sys).
Proof.
  apply (handleGenerate_keeps_staging backend_200 staged_sys (file := cat_png)).
  reflexivity.
Defined.

(** C7: with a file staged, the loading flag is off when [handleGenerate]
    completes, and the call completes normally, whatever the backend does:
    a success, a status that is not a success, a rejected [fetch] or a body
    that cannot be read. *)
Theorem handleGenerate_settles (backend : Backend) (w : Sys) (file : File) :
  uploadedFile (state w) = Some file ->
  isLoading (state (after (handleGenerate backend) w)) = false
  /\ completion (handleGenerate backend) w = Normal tt.
Proof.
  intros H. expose w. subst. run_handler.
  generate_cases backend; split; reflexivity.
Qed.

Lemma handleGenerate_settles_witness :
  isLoading (state (after (handleGenerate backend_down) staged_sys)) = false
  /\ completion (handleGenerate backend_down) staged_sys = Normal tt.
Proof.
  apply (handleGenerate_settles backend_down staged_sys (file := cat_png)).
  reflexivity.
Defined.

(** From whatever state a call with a staged file starts, a success answer
    takes the status to [Submitting] and then to [Succeeded], and the error
    is empty from the third setter call on. *)
Lemma handleGenerate_success_from_any
    (backend : Backend) (w : Sys) (file : File) (r : Response) (b : Blob) :
  uploadedFile (state w) = Some file ->
  backend (generate_request file (prompt (state w))) = Normal r ->
  ok r = true ->
  blob r = Normal b ->
  transitions (map workflowStatus (points (handleGenerate backend) w))
  = transitions [workflowStatus (state w); Submitting; Succeeded]
  /\ Forall (fun s => error s = None)
       (skipn 3 (points (handleGenerate backend) w)).
Proof.
  intros H HB HO HR. expose w. subst. unfold generate_request in HB.
  run_handler. rewrite HB, HO. cells. rewrite HR. cells. new_commits. split.
  - unfold workflowStatus; cbn. destruct ld, gi, er; reflexivity.
  - cbn [skipn]. each_point; reflexivity.
Qed.

(** C5: a [handleGenerate] call that starts in the [Idle] state with a file
    staged, and whose request is answered with a success status and a
    readable binary body, takes the status from [Idle] to [Submitting] to
    [Succeeded]; the result becomes a new object URL standing for the
    returned blob; and the error is empty at every point of the call. *)
Theorem handleGenerate_success
    (backend : Backend) (w : Sys) (file : File) (r : Response) (b : Blob) :
  uploadedFile (state w) = Some file ->
  workflowStatus (state w) = Idle ->
  backend (generate_request file (prompt (state w))) = Normal r ->
  ok r = true ->
  blob r = Normal b ->
  let w' := after (handleGenerate backend) w in
  let u := BlobURL (length (objectURLs w)) in
  transitions (map workflowStatus (points (handleGenerate backend) w))
  = [Idle; Submitting; Succeeded]
  /\ workflowStatus (state w') = Succeeded
  /\ generatedImage (state w') = Some u
  /\ resolve w' u = Some b
  /\ resolve w u = None
  /\ Forall (fun s => error s = None) (points (handleGenerate backend) w)
  /\ completion (handleGenerate backend) w = Normal tt.
Proof.
  intros H HI HB HO HR. expose w. subst. unfold generate_request in HB.
  unfold workflowStatus in HI; cbn in HI.
  destruct ld; [discriminate|]. destruct gi; [discriminate|].
  destruct er; [discriminate|]. clear HI.
  run_handler. rewrite HB, HO. cells. rewrite HR. cells. new_commits.
  unfold resolve; cbn [objectURLs].
  rewrite nth_error_snoc, nth_error_own_length.
  repeat split. each_point; reflexivity.
Qed.

Lemma handleGenerate_success_witness :
  let w' := after (handleGenerate backend_200) staged_sys in
  let u := BlobURL (length (objectURLs staged_sys)) in
  transitions (map workflowStatus (points (handleGenerate backend_200) staged_sys))
  = [Idle; Submitting; Succeeded]
  /\ workflowStatus (state w') = Succeeded
  /\ generatedImage (state w') = Some u
  /\ resolve w' u = Some payload
  /\ resolve staged_sys u = None
  /\ Forall (fun s => error s = None)
       (points (handleGenerate backend_200) staged_sys)
  /\ completion (handleGenerate backend_200) staged_sys = Normal tt.
Proof.
  apply (handleGenerate_success backend_200 staged_sys (file := cat_png)
           (r := {| status := 200; text := Normal ""; blob := Normal payload |}));
    reflexivity.
Defined.

(** C6: a [handleGenerate] call that starts in the [Idle] state with a file
    staged, and whose request fails (a status that is not a success, a
    rejected [fetch], or a body that cannot be read), takes the status from
    [Idle] to [Submitting] to [Failed]; the error becomes the fixed generic
    message and the result is empty, afterwards and at every point.  What
    went wrong goes to the console, as one entry: for a status that is not
    a success and a readable text body, an [Error] whose message holds the
    status code and the body text.  No point of the call shows anything but
    no error or the generic message. *)
Theorem handleGenerate_failure (backend : Backend) (w : Sys) (file : File) :
  uploadedFile (state w) = Some file ->
  workflowStatus (state w) = Idle ->
  request_fails (backend (generate_request file (prompt (state w)))) ->
  let w' := after (handleGenerate backend) w in
  transitions (map workflowStatus (points (handleGenerate backend) w))
  = [Idle; Submitting; Failed]
  /\ state w' =
       {| uploadedImage := uploadedImage (state w);
          uploadedFile := uploadedFile (state w);
          generatedImage := None;
          prompt := prompt (state w);
          isLoading := false;
          error := Some generic_message |}
  /\ workflowStatus (state w') = Failed
  /\ Forall (fun s => generatedImage s = None
                      /\ (error s = None \/ error s = Some generic_message))
       (points (handleGenerate backend) w)
  /\ (exists detail : JsError,
        console w' =
          (console w ++ [{| label := "Error generating image:";
                            logged := detail |}])%list
        /\ forall r t,
             backend (generate_request file (prompt (state w))) = Normal r ->
             ok r = false ->
             text r = Normal t ->
             detail = Error ("Network response was not ok. Status: "
                             ++ number_to_string (status r)
                             ++ ". Message: " ++ t))
  /\ completion (handleGenerate backend) w = Normal tt.
Proof.
  intros H HI HF. expose w. subst. unfold generate_request in *.
  unfold workflowStatus in HI; cbn in HI.
  destruct ld; [discriminate|]. destruct gi; [discriminate|].
  destruct er; [discriminate|]. clear HI.
  run_handler. generate_cases backend; new_commits.
  - (* a success status and a readable body: not a failure *)
    inversion HF; subst; congruence.
  - (* a success status, the body cannot be read *)
    repeat split; try (each_point; split; auto).
    eexists; split; [reflexivity|]. intros r0 t [= <-]. congruence.
  - (* not a success status, the text was read *)
    repeat split; try (each_point; split; auto).
    eexists; split; [reflexivity|]. intros r0 t0 [= <-] _ HT.
    rewrite T in HT. injection HT as <-. reflexivity.
  - (* not a success status, the text cannot be read *)
    repeat split; try (each_point; split; auto).
    eexists; split; [reflexivity|]. intros r0 t [= <-]. congruence.
  - (* fetch rejects *)
    repeat split; try (each_point; split; auto).
    eexists; split; [reflexivity|]. intros r0 t [=].
Qed.

Lemma handleGenerate_failure_witness :
  let w' := after (handleGenerate backend_500) staged_sys in
  transitions (map workflowStatus (points (handleGenerate backend_500) staged_sys))
  = [Idle; Submitting; Failed]
  /\ state w' =
       {| uploadedImage := uploadedImage (state staged_sys);
          uploadedFile := uploadedFile (state staged_sys);
          generatedImage := None;
          prompt := prompt (state staged_sys);
          isLoading := false;
          error := Some generic_message |}
  /\ workflowStatus (state w') = Failed
  /\ Forall (fun s => generatedImage s = None
                      /\ (error s = None \/ error s = Some generic_message))
       (points (handleGenerate backend_500) staged_sys)
  /\ (exists detail : JsError,
        console w' =
          (console staged_sys ++ [{| label := "Error generating image:";
                                     logged := detail |}])%list
        /\ forall r t,
             backend_500 (generate_request cat_png (prompt (state staged_sys)))
             = Normal r ->
             ok r = false ->
             text r = Normal t ->
             detail = Error ("Network response was not ok. Status: "
                             ++ number_to_string (status r)
                             ++ ". Message: " ++ t))
  /\ completion (handleGenerate backend_500) staged_sys = Normal tt.
Proof.
  apply (handleGenerate_failure backend_500 staged_sys (file := cat_png)).
  - reflexivity.
  - reflexivity.
  - apply status_not_ok. reflexivity.
Defined.

(** ** The result and the error *)

Lemma settled_result_xor_error (s : State) :
  settled s -> result_xor_error s.
Proof. intros (_ & H & _) _. exact H. Qed.

(** One operation from a settled state: it commits only states in which the
    result and the error exclude each other or a request is being
    submitted, and it ends in a settled state. *)
Lemma handler_settled (o : Op) (w : Sys) :
  settled (state w) ->
  match o with
  | FileIntake c => accepted c || negb (has_result (state w)) = true
  | _ => True
  end ->
  exists new : list State,
    commits (after (handler o) w) = (commits w ++ new)%list
    /\ Forall result_xor_error new
    /\ settled (state (after (handler o) w)).
Proof.
  intros (HL & HX & HF) HA. expose w. subst.
  unfold settled, result_xor_error.
  destruct o as [c|backend| |v]; unfold handler.
  - (* file intake *)
    unfold accepted, has_result in HA. cbn [state generatedImage] in HA.
    unfold handleFileChange; cbv zeta.
    destruct c as [f|]; [destruct (String.prefix "image/" (type f))|];
      run_handler; eexists; (split; [new_commits; reflexivity|]);
      cbn [orb negb] in HA;
      try (destruct gi; [discriminate HA|]);
      (split; [each_point; intros _; auto
              | cells; repeat split; auto; discriminate]).
  - (* generate *)
    destruct uf as [file|].
    + run_handler. generate_cases backend;
        eexists; (split; [new_commits; reflexivity|]);
        (split; [each_point; intros ?; solve [auto | discriminate]
                | cells; repeat split; auto; discriminate]).
    + run_handler. eexists. split; [new_commits; reflexivity|].
      rewrite (HF eq_refl).
      split; [each_point; intros _; auto | cells; repeat split; auto].
  - (* dismiss *)
    run_handler. eexists. split; [reflexivity|].
    split; [each_point; intros _; auto | cells; repeat split; auto].
  - (* typing the prompt *)
    run_handler. eexists. split; [reflexivity|].
    split; [each_point; intros _; auto | cells; repeat split; auto].
Qed.

Lemma run_settled (ops : list Op) (w : Sys) :
  settled (state w) ->
  Forall result_xor_error (commits w) ->
  no_rejection_over_result ops w = true ->
  settled (state (run ops w))
  /\ Forall result_xor_error (commits (run ops w)).
Proof.
  revert w. induction ops as [|o ops IH]; intros w HS HC HA.
  - split; assumption.
  - cbn [no_rejection_over_result] in HA.
    apply andb_true_iff in HA. destruct HA as [HO HR].
    assert (HO' : match o with
                  | FileIntake c =>
                      accepted c || negb (has_result (state w)) = true
                  | _ => True
                  end) by (destruct o; auto).
    destruct (handler_settled o w HS HO') as (new & EC & HN & HS').
    change (run (o :: ops) w) with (run ops (after (handler o) w)).
    apply IH; [exact HS' | | exact HR].
    rewrite EC. apply Forall_app. split; assumption.
Qed.

(** C1, as amended: along any sequence of file intakes, generate calls,
    dismissals and prompt changes, each run to completion, in which no file
    is rejected while a result is there, at most one of the result and the
    error is non-empty whenever the loading flag is off: in the state the
    sequence ends in, and in every state committed on the way. *)
Theorem result_xor_error_without_rejection_over_result (ops : list Op) :
  no_rejection_over_result ops initial_sys = true ->
  result_xor_error (state (run ops initial_sys))
  /\ Forall result_xor_error (commits (run ops initial_sys)).
Proof.
  intros HA.
  destruct (run_settled ops initial_sys) as [HS HC].
  - unfold settled; cbn. auto.
  - constructor.
  - exact HA.
  - split; [apply settled_result_xor_error; exact HS | exact HC].
Qed.

Lemma result_xor_error_without_rejection_over_result_witness :
  let ops := [FileIntake (Some notes_txt); FileIntake (Some cat_png);
              Generate backend_500; Dismiss; TypePrompt "ghibli style";
              Generate backend_200] in
  result_xor_error (state (run ops initial_sys))
  /\ Forall result_xor_error (commits (run ops initial_sys)).
Proof.
  apply (result_xor_error_without_rejection_over_result
           [FileIntake (Some notes_txt); FileIntake (Some cat_png);
            Generate backend_500; Dismiss; TypePrompt "ghibli style";
            Generate backend_200]).
  reflexivity.
Defined.

(** C1 as stated fails: stage an image, generate with success, then drop a
    file that is not an image.  The rejection sets the error and leaves the
    result, with the loading flag off. *)
Lemma result_and_error_after_rejection :
  ~ result_xor_error
      (state (run [FileIntake (Some cat_png); Generate backend_200;
                   FileIntake (Some notes_txt)] initial_sys)).
Proof.
  intros H. vm_compute in H. destruct (H eq_refl); discriminate.
Qed.

(** ** Requests in flight *)

(** The two halves make up the call: [handleGenerate] is its start followed,
    when a request went out, by what runs once the backend has settled it. *)
Lemma handleGenerate_split (backend : Backend) (w : Sys) :
  handleGenerate backend w =
  match handleGenerate_start w with
  | (Normal (Some req), w1) => handleGenerate_resume (backend req) w1
  | (Normal None, w1) => (Normal tt, w1)
  | (Throw e, w1) => (Throw e, w1)
  end.
Proof.
  expose w. unfold handleGenerate_start, handleGenerate_resume. run_handler.
  destruct uf as [file|]; [|reflexivity]. cells.
  generate_cases backend; reflexivity.
Qed.

(** A generate call that nothing interrupts is a click followed by the
    settling of its request. *)
Lemma react_click_settle (backend : Backend) (w : Sys) (file : File) :
  uploadedFile (state w) = Some file ->
  sys (play
         [Click; Settle (backend (generate_request file (prompt (state w))))]
         {| sys := w; pending := 0 |})
  = after (handleGenerate backend) w.
Proof.
  intros H. unfold after. rewrite handleGenerate_split.
  expose w. subst. unfold play, react, handleGenerate_start.
  run_handler. reflexivity.
Qed.

Lemma react_in_order (e : Event) (l : Live) :
  in_order l ->
  disciplined [e] l = true ->
  in_order (react e l).
Proof.
  intros HI HD. cbn [disciplined] in HD. rewrite andb_true_r in HD.
  destruct l as [w n]. expose w. unfold in_order, settled in *.
  cbn [sys pending state isLoading generatedImage error uploadedFile] in *.
  unfold has_result in HD. cbn [generatedImage] in HD.
  destruct HI as [(-> & -> & HX & HF) | (-> & -> & -> & -> & HU)].
  - (* nothing in flight *)
    destruct e as [c| |o| |v]; unfold react; cbn [sys pending].
    + left. unfold handleFileChange, accepted in *; cbv zeta.
      destruct c as [f|]; [destruct (String.prefix "image/" (type f))|];
        cbn [orb andb negb] in HD; try rewrite andb_true_r in HD;
        try (destruct gi; [discriminate HD|]);
        run_handler; repeat split; auto; discriminate.
    + unfold handleGenerate_start. run_handler.
      destruct uf as [file|]; cells.
      * right. repeat split. discriminate.
      * left. rewrite (HF eq_refl). repeat split; auto.
    + left. repeat split; auto.
    + left. run_handler. repeat split; auto.
    + left. run_handler. repeat split; auto.
  - (* one request in flight *)
    destruct e as [c| |o| |v]; unfold react; cbn [sys pending].
    + right. unfold handleFileChange, accepted in *; cbv zeta.
      destruct c as [f|]; [destruct (String.prefix "image/" (type f))|];
        cbn [orb andb negb] in HD; try discriminate HD;
        run_handler; repeat split; discriminate.
    + discriminate HD.
    + left. unfold handleGenerate_resume. run_handler.
      destruct o as [r|e]; cells;
        [ destruct (ok r); cells; [destruct (blob r) | destruct (text r)] | ];
        cells; repeat split; auto; intros ->; exfalso; apply HU; reflexivity.
    + right. run_handler. repeat split; assumption.
    + right. run_handler. repeat split; assumption.
Qed.

(** X3: under the discipline, and with requests settling at any later moment
    while the user goes on staging files, typing and closing the banner, at
    most one of the result and the error is there whenever the loading flag
    is off. *)
Lemma result_xor_error_under_discipline (evs : list Event) :
  disciplined evs initial_live = true ->
  result_xor_error (state (sys (play evs initial_live))).
Proof.
  assert (G : forall l, in_order l -> disciplined evs l = true ->
                        in_order (play evs l)).
  { induction evs as [|e evs IH]; intros l HI HD; [exact HI|].
    cbn [disciplined] in HD. apply andb_true_iff in HD. destruct HD as [HE HR].
    change (play (e :: evs) l) with (play evs (react e l)).
    apply IH; [|exact HR]. apply react_in_order; [exact HI|].
    cbn [disciplined]. rewrite HE. reflexivity. }
  intros HD.
  assert (HI : in_order initial_live).
  { left. unfold settled; cbn. auto. }
  destruct (G initial_live HI HD) as [(_ & HS) | (_ & HL & _)].
  - apply settled_result_xor_error. exact HS.
  - intros HN. rewrite HL in HN. discriminate.
Qed.

(** Outside the discipline the result and the error meet again: a file that
    is not an image dropped while the request is in flight. *)
Lemma result_and_error_after_rejection_in_flight :
  ~ result_xor_error
      (state (sys (play
                     [Intake (Some cat_png); Click; Intake (Some notes_txt);
                      Settle (backend_200 (generate_request cat_png ""))]
                     initial_live))).
Proof.
  intros H. vm_compute in H. destruct (H eq_refl); discriminate.
Qed.

(** And two calls in flight at once, which only the disabled trigger
    prevents: the first fails, the second succeeds. *)
Lemma result_and_error_after_overlapping_calls :
  ~ result_xor_error
      (state (sys (play
                     [Intake (Some cat_png); Click; Click;
                      Settle (backend_500 (generate_request cat_png ""));
                      Settle (backend_200 (generate_request cat_png ""))]
                     initial_live))).
Proof.
  intros H. vm_compute in H. destruct (H eq_refl); discriminate.
Qed.

(** ** What each handler does to the system

    The effect of each handler on the component state, the object URLs, the
    request log and the console, stated once and used below. *)

Lemma nth_error_app_left (A : Type) (l t : list A) (n : nat) (a : A) :
  nth_error l n = Some a -> nth_error (l ++ t) n = Some a.
Proof.
  revert n. induction l as [|b l IH]; intros [|n] H; try discriminate H.
  - exact H.
  - apply IH. exact H.
Qed.

(** A handler followed by a plain return ends where the handler ends. *)
Lemma after_then_ret (A B : Type) (m : M A) (b : B) (w : Sys) :
  after (m ;; ret b) w = after m w.
Proof.
  unfold after, bind, ret. destruct (m w) as [[a|e] w']; reflexivity.
Qed.

Lemma handleFileChange_accepted (f : File) (w : Sys) :
  String.prefix "image/" (type f) = true ->
  let w' := after (handleFileChange (Some f)) w in
  completion (handleFileChange (Some f)) w = Normal tt
  /\ state w' =
       {| uploadedImage := Some (BlobURL (length (objectURLs w)));
          uploadedFile := Some f;
          generatedImage := None;
          prompt := prompt (state w);
          isLoading := isLoading (state w);
          error := None |}
  /\ objectURLs w' = (objectURLs w ++ [blob_of_file f])%list
  /\ network w' = network w
  /\ console w' = console w.
Proof.
  intros H. unfold completion, after, handleFileChange; cbv zeta. rewrite H.
  repeat split.
Qed.

Lemma handleFileChange_rejected (c : option File) (w : Sys) :
  accepted c = false ->
  let w' := after (handleFileChange c) w in
  completion (handleFileChange c) w = Normal tt
  /\ state w' =
       {| uploadedImage := None;
          uploadedFile := None;
          generatedImage := generatedImage (state w);
          prompt := prompt (state w);
          isLoading := isLoading (state w);
          error := Some "Please upload a valid image file." |}
  /\ objectURLs w' = objectURLs w
  /\ network w' = network w
  /\ console w' = console w.
Proof.
  intros H. unfold completion, after, handleFileChange; cbv zeta.
  destruct c as [f|]; [cbn [accepted] in H; rewrite H|]; repeat split.
Qed.

Lemma handleGenerate_start_staged (file : File) (w : Sys) :
  uploadedFile (state w) = Some file ->
  let req := generate_request file (prompt (state w)) in
  let w' := after handleGenerate_start w in
  completion handleGenerate_start w = Normal (Some req)
  /\ state w' =
       {| uploadedImage := uploadedImage (state w);
          uploadedFile := Some file;
          generatedImage := None;
          prompt := prompt (state w);
          isLoading := true;
          error := None |}
  /\ objectURLs w' = objectURLs w
  /\ network w' = (network w ++ [req])%list
  /\ console w' = console w.
Proof.
  intros H. unfold completion, after, handleGenerate_start, bind, closure.
  rewrite H. cbv zeta. rewrite <- H. destruct w as [[ui uf gi p ld er] urls net con com].
  repeat split.
Qed.

Lemma handleGenerate_start_unstaged (w : Sys) :
  uploadedFile (state w) = None ->
  let w' := after handleGenerate_start w in
  completion handleGenerate_start w = Normal None
  /\ state w' =
       {| uploadedImage := uploadedImage (state w);
          uploadedFile := None;
          generatedImage := generatedImage (state w);
          prompt := prompt (state w);
          isLoading := isLoading (state w);
          error := Some "Please upload an image first!" |}
  /\ objectURLs w' = objectURLs w
  /\ network w' = network w
  /\ console w' = console w.
Proof.
  intros H. unfold completion, after, handleGenerate_start, bind, closure.
  rewrite H. rewrite <- H. destruct w as [[ui uf gi p ld er] urls net con com].
  repeat split.
Qed.

Lemma handleGenerate_resume_success (r : Response) (b : Blob) (w : Sys) :
  ok r = true ->
  blob r = Normal b ->
  let w' := after (handleGenerate_resume (Normal r)) w in
  completion (handleGenerate_resume (Normal r)) w = Normal tt
  /\ state w' =
       {| uploadedImage := uploadedImage (state w);
          uploadedFile := uploadedFile (state w);
          generatedImage := Some (BlobURL (length (objectURLs w)));
          prompt := prompt (state w);
          isLoading := false;
          error := error (state w) |}
  /\ objectURLs w' = (objectURLs w ++ [b])%list
  /\ network w' = network w
  /\ console w' = console w.
Proof.
  intros HO HB.
  unfold completion, after, handleGenerate_resume, try_catch_finally, bind, await.
  rewrite HO. cbn [negb]. unfold ret. rewrite HB. repeat split.
Qed.

Lemma handleGenerate_resume_failure (o : Completion Response) (w : Sys) :
  request_fails o ->
  let w' := after (handleGenerate_resume o) w in
  completion (handleGenerate_resume o) w = Normal tt
  /\ state w' =
       {| uploadedImage := uploadedImage (state w);
          uploadedFile := uploadedFile (state w);
          generatedImage := generatedImage (state w);
          prompt := prompt (state w);
          isLoading := false;
          error := Some generic_message |}
  /\ objectURLs w' = objectURLs w
  /\ network w' = network w
  /\ exists d, console w' =
       (console w ++ [{| label := "Error generating image:"; logged := d |}])%list.
Proof.
  intros HF.
  unfold completion, after, handleGenerate_resume, try_catch_finally, bind, await.
  destruct HF as [e|r HO|r e HO HB].
  - repeat split. eexists; reflexivity.
  - rewrite HO. cbn [negb]. destruct (text r); repeat split; eexists; reflexivity.
  - rewrite HO. cbn [negb]. unfold ret. rewrite HB. repeat split. eexists; reflexivity.
Qed.

(** [handleFileChange] either takes the candidate or rejects it. *)
Ltac intake_cases c w :=
  let A := fresh "A" in let f := fresh "f" in
  let ES := fresh "ES" in let EU := fresh "EU" in
  let EN := fresh "EN" in let EC := fresh "EC" in let EK := fresh "EK" in
  destruct (accepted c) eqn:A;
  [ destruct c as [f|]; [|discriminate A]; cbn [accepted] in A;
    destruct (@handleFileChange_accepted f w A) as (EK & ES & EU & EN & EC)
  | destruct (@handleFileChange_rejected c w A) as (EK & ES & EU & EN & EC) ];
  cbv zeta in EK, ES, EU, EN, EC.

(** The first half of [handleGenerate] finds a staged file or none. *)
Ltac start_cases w :=
  let U := fresh "U" in let file := fresh "file" in
  let ES := fresh "ES" in let EU := fresh "EU" in
  let EN := fresh "EN" in let EC := fresh "EC" in let EK := fresh "EK" in
  destruct (uploadedFile (state w)) as [file|] eqn:U;
  [ destruct (@handleGenerate_start_staged file w U) as (EK & ES & EU & EN & EC)
  | destruct (@handleGenerate_start_unstaged w U) as (EK & ES & EU & EN & EC) ];
  cbv zeta in EK, ES, EU, EN, EC.

(** The second half of [handleGenerate] meets a success or a failure. *)
Ltac settle_cases o w :=
  let r := fresh "r" in let b := fresh "b" in
  let HO := fresh "HO" in let HB := fresh "HB" in let HF := fresh "HF" in
  let ES := fresh "ES" in let EU := fresh "EU" in
  let EN := fresh "EN" in let EC := fresh "EC" in let EK := fresh "EK" in
  destruct (succeeds_or_fails o) as [(r & b & -> & HO & HB) | HF];
  [ destruct (@handleGenerate_resume_success r b w HO HB) as (EK & ES & EU & EN & EC)
  | destruct (@handleGenerate_resume_failure _ w HF) as (EK & ES & EU & EN & EC) ];
  cbv zeta in EK, ES, EU, EN, EC.

(** ** Reachable systems *)

Lemma sys_react_click (l : Live) :
  sys (react Click l) = after handleGenerate_start (sys l).
Proof.
  unfold react, after.
  destruct (handleGenerate_start (sys l)) as [[[req|]|e] w]; reflexivity.
Qed.

Lemma reachable_react (e : Event) (l : Live) :
  reachable (sys l) -> reachable (sys (react e l)).
Proof.
  intros H. destruct e as [c| |o| |v].
  - apply reach_file. exact H.
  - rewrite sys_react_click. apply reach_start. exact H.
  - unfold react. destruct (pending l); [exact H | apply reach_resume; exact H].
  - apply reach_close. exact H.
  - apply reach_prompt. exact H.
Qed.

Lemma reachable_play (evs : list Event) (l : Live) :
  reachable (sys l) -> reachable (sys (play evs l)).
Proof.
  revert l. induction evs as [|e evs IH]; intros l H; [exact H|].
  change (play (e :: evs) l) with (play evs (react e l)).
  apply IH. apply reachable_react. exact H.
Qed.

(** With a file staged, [handleGenerate] is its first half followed by its
    second half on what the backend makes of the request. *)
Lemma handleGenerate_halves (backend : Backend) (w : Sys) (file : File) :
  uploadedFile (state w) = Some file ->
  handleGenerate backend w
  = handleGenerate_resume
      (backend (generate_request file (prompt (state w))))
      (after handleGenerate_start w).
Proof.
  intros H. rewrite handleGenerate_split.
  destruct (@handleGenerate_start_staged file w H) as (EK & _).
  unfold completion, after in *.
  destruct (handleGenerate_start w) as [c w1]. cbn [fst snd] in *.
  rewrite EK. reflexivity.
Qed.

(** With no file staged, it is its first half alone. *)
Lemma handleGenerate_unstaged (backend : Backend) (w : Sys) :
  uploadedFile (state w) = None ->
  after (handleGenerate backend) w = after handleGenerate_start w.
Proof.
  intros H. unfold after at 1. rewrite handleGenerate_split.
  destruct (@handleGenerate_start_unstaged w H) as (EK & _).
  unfold completion, after in *.
  destruct (handleGenerate_start w) as [c w1]. cbn [fst snd] in *.
  rewrite EK. reflexivity.
Qed.

Lemma reachable_handleGenerate (backend : Backend) (w : Sys) :
  reachable w -> reachable (after (handleGenerate backend) w).
Proof.
  intros H. destruct (uploadedFile (state w)) as [file|] eqn:U.
  - unfold after at 1. rewrite (@handleGenerate_halves backend w file U).
    apply reach_resume. apply reach_start. exact H.
  - rewrite (@handleGenerate_unstaged backend w U). apply reach_start. exact H.
Qed.

Lemma reachable_run (ops : list Op) (w : Sys) :
  reachable w -> reachable (run ops w).
Proof.
  revert w. induction ops as [|o ops IH]; intros w H; [exact H|].
  change (run (o :: ops) w) with (run ops (after (handler o) w)).
  apply IH. destruct o as [c|backend| |v]; unfold handler.
  - apply reach_file. exact H.
  - apply reachable_handleGenerate. exact H.
  - apply reach_close. exact H.
  - apply reach_prompt. exact H.
Qed.

(** Where the handler of a gesture ends. *)
Lemma after_gesture_handler (g : Gesture) (w : Sys) :
  after (gesture_handler g) w =
  match g with
  | DragOver _ | PressBrowse => w
  | Drop e => match dataTransfer_files e with
              | [] => w
              | f :: _ => after (handleFileChange (Some f)) w
              end
  | ChooseFiles files => after (handleFileChange (hd_error files)) w
  | PressCreate => after handleGenerate_start w
  | PressClose => after onClose w
  | EditPrompt v => after (onPromptChange v) w
  | Respond o => after (handleGenerate_resume o) w
  end.
Proof.
  destruct g as [e|e|files| | | |v|o]; cbn [gesture_handler];
    try reflexivity.
  - rewrite after_then_ret. unfold handleDropEvent; cbv zeta.
    rewrite after_then_ret. destruct e as [[|f files] d]; reflexivity.
  - unfold after, onBrowseClick, bind, closure.
    destruct (uploader (render (state w))); reflexivity.
  - apply after_then_ret.
Qed.

Lemma reachable_ui_react (g : Gesture) (l : Live) :
  reachable (sys l) -> reachable (sys (ui_react g l)).
Proof.
  intros H. unfold ui_react. destruct (offered l g); [|exact H].
  destruct g as [e|e|files| | | |v|o];
    try (apply reachable_react; exact H);
    cbn [sys]; rewrite after_gesture_handler.
  - exact H.
  - destruct (dataTransfer_files e); [exact H | apply reach_file; exact H].
  - apply reach_file. exact H.
  - exact H.
  - apply reach_close. exact H.
  - apply reach_prompt. exact H.
Qed.

Lemma reachable_ui_play (gs : list Gesture) (l : Live) :
  reachable (sys l) -> reachable (sys (ui_play gs l)).
Proof.
  revert l. induction gs as [|g gs IH]; intros l H; [exact H|].
  change (ui_play (g :: gs) l) with (ui_play gs (ui_react g l)).
  apply IH. apply reachable_ui_react. exact H.
Qed.

(** ** The preview and the result *)

Lemma reachable_urls (w : Sys) :
  reachable w -> preview_of_staged w /\ result_is_live w.
Proof.
  unfold preview_of_staged, result_is_live, resolve.
  induction 1 as [|c w R [HP HR]|w R [HP HR]|o w R [HP HR]|w R IH|v w R IH].
  - split; exact I.
  - (* file intake *)
    intake_cases c w; rewrite ES, EU;
      cbn [uploadedFile uploadedImage generatedImage].
    + split; [apply nth_error_snoc | exact I].
    + split; [exact I|].
      destruct (generatedImage (state w)) as [[g]|]; [|exact I].
      split; [apply HR | discriminate].
  - (* the first half of generate *)
    start_cases w; rewrite ES, EU;
      cbn [uploadedFile uploadedImage generatedImage].
    + split; [exact HP | exact I].
    + split; [exact HP | exact HR].
  - (* the second half of generate *)
    settle_cases o w; rewrite ES, EU;
      cbn [uploadedFile uploadedImage generatedImage].
    + split.
      * destruct (uploadedFile (state w)) as [f|],
                 (uploadedImage (state w)) as [[i]|]; try exact HP.
        apply nth_error_app_left. exact HP.
      * split; [eexists; apply nth_error_snoc|].
        destruct (uploadedFile (state w)) as [f|],
                 (uploadedImage (state w)) as [[i]|];
          try discriminate; try contradiction.
        intros [= ->]. rewrite nth_error_own_length in HP. discriminate.
    + split; [exact HP | exact HR].
  - exact IH.
  - exact IH.
Qed.

(** X4: whatever the order of file intakes, generate calls, dismissals and
    prompt changes, with requests settling at any moment or the page driven
    through its controls, the preview is the staged file: both are absent,
    or the preview URL stands for the bytes of the file that is staged.  A
    result, when there is one, is a URL that stands for a blob and is not
    the preview URL. *)
Theorem preview_is_staged_file :
  (forall ops, preview_of_staged (run ops initial_sys)
               /\ result_is_live (run ops initial_sys))
  /\ (forall evs, preview_of_staged (sys (play evs initial_live))
                  /\ result_is_live (sys (play evs initial_live)))
  /\ (forall gs, preview_of_staged (sys (ui_play gs initial_live))
                 /\ result_is_live (sys (ui_play gs initial_live))).
Proof.
  split; [|split]; intros; apply reachable_urls.
  - apply reachable_run. exact reach_initial.
  - apply reachable_play. exact reach_initial.
  - apply reachable_ui_play. exact reach_initial.
Qed.

(** ** The error shown *)

Lemma reachable_known_error (w : Sys) :
  reachable w -> known_error (error (state w)).
Proof.
  unfold known_error.
  induction 1 as [|c w R IH|w R IH|o w R IH|w R IH|v w R IH].
  - left. reflexivity.
  - intake_cases c w; rewrite ES; cbn [error]; auto.
  - start_cases w; rewrite ES; cbn [error]; auto.
  - settle_cases o w; rewrite ES; cbn [error]; auto.
  - left. reflexivity.
  - exact IH.
Qed.

Lemma known_error_banner (s : State) :
  known_error (error s) -> banner (render s) = error s.
Proof.
  unfold known_error, generic_message, render; cbn [banner].
  intros [-> | [-> | [-> | ->]]]; reflexivity.
Qed.

(** X5: whatever the handlers are called with and whatever the backend
    answers, the error is absent or one of the three fixed messages of the
    source, and the banner shows exactly the error: no text of a response
    and no exception message ever reaches the banner. *)
Theorem error_is_a_fixed_message :
  (forall ops, let s := state (run ops initial_sys) in
               known_error (error s) /\ banner (render s) = error s)
  /\ (forall evs, let s := state (sys (play evs initial_live)) in
                  known_error (error s) /\ banner (render s) = error s)
  /\ (forall gs, let s := state (sys (ui_play gs initial_live)) in
                 known_error (error s) /\ banner (render s) = error s).
Proof.
  assert (G : forall w, reachable w ->
                        known_error (error (state w))
                        /\ banner (render (state w)) = error (state w)).
  { intros w R. pose proof (reachable_known_error R) as K.
    split; [exact K | apply known_error_banner; exact K]. }
  split; [|split]; intros; apply G.
  - apply reachable_run. exact reach_initial.
  - apply reachable_play. exact reach_initial.
  - apply reachable_ui_play. exact reach_initial.
Qed.

(** ** The requests sent *)

Lemma reachable_requests (w : Sys) :
  reachable w -> Forall well_formed_request (network w).
Proof.
  induction 1 as [|c w R IH|w R IH|o w R IH|w R IH|v w R IH].
  - constructor.
  - intake_cases c w; rewrite EN; exact IH.
  - start_cases w; rewrite EN; [|exact IH].
    apply Forall_app. split; [exact IH|]. constructor; [|constructor].
    exists file, (prompt (state w)). reflexivity.
  - settle_cases o w; rewrite EN; exact IH.
  - exact IH.
  - exact IH.
Qed.

(** X6: every request the page has sent, along any sequence of operations
    or events, is one built by [handleGenerate]: a POST to the fixed URL
    with no headers and the two form entries [image] and [prompt]. *)
Theorem every_request_is_a_generate_request :
  (forall ops, Forall well_formed_request (network (run ops initial_sys)))
  /\ (forall evs,
        Forall well_formed_request (network (sys (play evs initial_live))))
  /\ (forall gs,
        Forall well_formed_request (network (sys (ui_play gs initial_live)))).
Proof.
  split; [|split]; intros; apply reachable_requests.
  - apply reachable_run. exact reach_initial.
  - apply reachable_play. exact reach_initial.
  - apply reachable_ui_play. exact reach_initial.
Qed.

(** X7: only the press of the trigger sends, and it sends at most one
    request: a file intake, a dismissal, a prompt change and the settling of
    a request, failed or not, leave the request log as it is (nothing is
    sent again). *)
Theorem only_click_sends (e : Event) (l : Live) :
  exists new : list Request,
    network (sys (react e l)) = (network (sys l) ++ new)%list
    /\ length new <= 1
    /\ match e with Click => True | _ => new = [] end.
Proof.
  destruct e as [c| |o| |v].
  - exists []. rewrite app_nil_r. split; [|split; [auto|reflexivity]].
    unfold react; cbn [sys]. intake_cases c (sys l); exact EN.
  - rewrite sys_react_click. start_cases (sys l).
    + eexists. split; [exact EN|]. split; [apply le_n | exact I].
    + exists []. rewrite app_nil_r. split; [exact EN|]. split; [auto|exact I].
  - exists []. rewrite app_nil_r. split; [|split; [auto|reflexivity]].
    unfold react. destruct (pending l); [reflexivity|]. cbn [sys].
    settle_cases o (sys l); exact EN.
  - exists []. rewrite app_nil_r. split; [|split; [auto|reflexivity]].
    reflexivity.
  - exists []. rewrite app_nil_r. split; [|split; [auto|reflexivity]].
    reflexivity.
Qed.

(** ** Object URLs are never released *)

Lemma resolve_extends (w w' : Sys) (ext : list Blob) (u : ObjectURL) (b : Blob) :
  objectURLs w' = (objectURLs w ++ ext)%list ->
  resolve w u = Some b -> resolve w' u = Some b.
Proof.
  unfold resolve. intros -> H. destruct u as [i].
  apply nth_error_app_left. exact H.
Qed.

Lemma resolve_same (w w' : Sys) (u : ObjectURL) (b : Blob) :
  objectURLs w' = objectURLs w ->
  resolve w u = Some b -> resolve w' u = Some b.
Proof. unfold resolve. intros ->. exact (fun H => H). Qed.

Lemma resolve_reachable_step (w : Sys) (u : ObjectURL) (b : Blob) :
  resolve w u = Some b ->
  (forall c, resolve (after (handleFileChange c) w) u = Some b)
  /\ resolve (after handleGenerate_start w) u = Some b
  /\ (forall o, resolve (after (handleGenerate_resume o) w) u = Some b).
Proof.
  intros H. split; [|split].
  - intros c. intake_cases c w.
    + exact (@resolve_extends w _ _ u b EU H).
    + exact (@resolve_same w _ u b EU H).
  - start_cases w; exact (@resolve_same w _ u b EU H).
  - intros o. settle_cases o w.
    + exact (@resolve_extends w _ _ u b EU H).
    + exact (@resolve_same w _ u b EU H).
Qed.

Lemma resolve_react (e : Event) (l : Live) (u : ObjectURL) (b : Blob) :
  resolve (sys l) u = Some b -> resolve (sys (react e l)) u = Some b.
Proof.
  intros H. destruct (resolve_reachable_step (sys l) u H) as (HF & HS & HR).
  destruct e as [c| |o| |v].
  - apply HF.
  - rewrite sys_react_click. exact HS.
  - unfold react. destruct (pending l); [exact H | apply HR].
  - exact H.
  - exact H.
Qed.

Lemma resolve_handler (o : Op) (w : Sys) (u : ObjectURL) (b : Blob) :
  resolve w u = Some b -> resolve (after (handler o) w) u = Some b.
Proof.
  intros H. destruct (resolve_reachable_step w u H) as (HF & HS & _).
  destruct o as [c|backend| |v]; unfold handler.
  - apply HF.
  - destruct (uploadedFile (state w)) as [file|] eqn:U.
    + unfold after at 1. rewrite (@handleGenerate_halves backend w file U).
      apply (resolve_reachable_step (after handleGenerate_start w) u HS).
    + rewrite (@handleGenerate_unstaged backend w U). exact HS.
  - exact H.
  - exact H.
Qed.

(** X2: no handler releases an object URL.  A URL that stands for a blob
    stands for the same blob after any sequence of operations, and after
    any sequence of events with requests in flight: the preview of a file
    that was replaced and the result of an earlier call stay registered. *)
Theorem object_urls_are_never_released (w : Sys) (u : ObjectURL) (b : Blob) :
  resolve w u = Some b ->
  (forall ops, resolve (run ops w) u = Some b)
  /\ (forall evs n,
        resolve (sys (play evs {| sys := w; pending := n |})) u = Some b).
Proof.
  intros H. split.
  - intros ops. revert w H. induction ops as [|o ops IH]; intros w H; [exact H|].
    change (run (o :: ops) w) with (run ops (after (handler o) w)).
    apply IH. apply resolve_handler. exact H.
  - intros evs n.
    change w with (sys {| sys := w; pending := n |}) in H.
    generalize dependent {| sys := w; pending := n |}. clear w.
    induction evs as [|e evs IH]; intros l H; [exact H|].
    change (play (e :: evs) l) with (play evs (react e l)).
    apply IH. apply resolve_react. exact H.
Qed.

Lemma object_urls_are_never_released_witness :
  (forall ops, resolve (run ops staged_sys) (BlobURL 0)
               = Some (blob_of_file cat_png))
  /\ (forall evs n,
        resolve (sys (play evs {| sys := staged_sys; pending := n |}))
          (BlobURL 0)
        = Some (blob_of_file cat_png)).
Proof.
  apply (object_urls_are_never_released staged_sys (BlobURL 0)). reflexivity.
Defined.

(** ** Drag and drop *)

Lemma completion_then_ret (A B : Type) (m : M A) (a : A) (b : B) (w : Sys) :
  completion m w = Normal a -> completion (m ;; ret b) w = Normal b.
Proof.
  unfold completion, bind, ret. destruct (m w) as [[a'|e] w']; cbn [fst].
  - reflexivity.
  - discriminate.
Qed.

Lemma handleFileChange_completes (c : option File) (w : Sys) :
  completion (handleFileChange c) w = Normal tt.
Proof. intake_cases c w; exact EK. Qed.

(** X1: [handleDragOver] and [handleDrop] suppress the browser's default
    for every event, and keep its file list.  Dragging over the zone
    changes nothing else.  A drop without files changes nothing either, not
    even the error; a drop with files is a file intake of the first file,
    and the other files are ignored. *)
Theorem drop_takes_the_first_file (e : DragEvent) (w : Sys) :
  handleDragOver e w = (Normal (preventDefault e), w)
  /\ completion (handleDropEvent e) w = Normal (preventDefault e)
  /\ defaultPrevented (preventDefault e) = true
  /\ dataTransfer_files (preventDefault e) = dataTransfer_files e
  /\ after (handleDropEvent e) w =
       match dataTransfer_files e with
       | [] => w
       | f :: _ => after (handleFileChange (Some f)) w
       end.
Proof.
  split; [reflexivity|]. split; [|split; [reflexivity|split; [reflexivity|]]].
  - unfold handleDropEvent; cbv zeta.
    apply completion_then_ret with tt.
    destruct e as [[|f files] d]; cbn [preventDefault dataTransfer_files handleDrop].
    + reflexivity.
    + apply handleFileChange_completes.
  - unfold handleDropEvent; cbv zeta. rewrite after_then_ret.
    destruct e as [[|f files] d]; reflexivity.
Qed.

(** ** The two ends of a generate call *)

(** X8: from any state with a file staged, whatever was shown before and
    whatever the backend does, [handleGenerate] ends with the loading flag
    off and in one of two ways.  Either the result is a new object URL
    standing for the blob of the response, the error is empty and nothing
    was logged; or the result is empty, the error is the generic message,
    no URL was registered and the console has one more entry. *)
Theorem handleGenerate_ends_in_one_of_two
    (backend : Backend) (w : Sys) (file : File) :
  uploadedFile (state w) = Some file ->
  let w' := after (handleGenerate backend) w in
  isLoading (state w') = false
  /\ ((exists r b,
         backend (generate_request file (prompt (state w))) = Normal r
         /\ blob r = Normal b
         /\ generatedImage (state w') = Some (BlobURL (length (objectURLs w)))
         /\ objectURLs w' = (objectURLs w ++ [b])%list
         /\ error (state w') = None
         /\ console w' = console w)
      \/ (request_fails (backend (generate_request file (prompt (state w))))
          /\ generatedImage (state w') = None
          /\ objectURLs w' = objectURLs w
          /\ error (state w') = Some generic_message
          /\ exists d, console w' =
               (console w ++ [{| label := "Error generating image:";
                                 logged := d |}])%list)).
Proof.
  intros H. cbv zeta. unfold after at 1 2 3 4 5 6 7 8 9.
  rewrite (@handleGenerate_halves backend w file H).
  fold (after (handleGenerate_resume
                 (backend (generate_request file (prompt (state w)))))
          (after handleGenerate_start w)).
  destruct (@handleGenerate_start_staged file w H) as (_ & SS & SU & _ & SC).
  cbv zeta in SS, SU, SC.
  remember (backend (generate_request file (prompt (state w)))) as o eqn:Eo.
  remember (after handleGenerate_start w) as w1 eqn:E1.
  destruct (succeeds_or_fails o) as [(r & b & Er & HO & HB) | HF].
  - rewrite Er.
    destruct (@handleGenerate_resume_success r b w1 HO HB) as (_ & ES & EU & _ & EC).
    cbv zeta in ES, EU, EC. rewrite ES, EU, EC, SS, SU, SC. cbn [isLoading].
    split; [reflexivity|]. left. exists r, b. repeat split. exact HB.
  - destruct (@handleGenerate_resume_failure o w1 HF) as (_ & ES & EU & _ & d & EC).
    cbv zeta in ES, EU, EC. rewrite ES, EU, EC, SS, SU, SC. cbn [isLoading].
    split; [reflexivity|]. right. repeat split; [exact HF|].
    exists d. reflexivity.
Qed.

Lemma handleGenerate_ends_in_one_of_two_witness :
  let w := failed_sys in
  let w' := after (handleGenerate backend_200) w in
  isLoading (state w') = false
  /\ ((exists r b,
         backend_200 (generate_request cat_png (prompt (state w))) = Normal r
         /\ blob r = Normal b
         /\ generatedImage (state w') = Some (BlobURL (length (objectURLs w)))
         /\ objectURLs w' = (objectURLs w ++ [b])%list
         /\ error (state w') = None
         /\ console w' = console w)
      \/ (request_fails (backend_200 (generate_request cat_png (prompt (state w))))
          /\ generatedImage (state w') = None
          /\ objectURLs w' = objectURLs w
          /\ error (state w') = Some generic_message
          /\ exists d, console w' =
               (console w ++ [{| label := "Error generating image:";
                                 logged := d |}])%list)).
Proof.
  apply (@handleGenerate_ends_in_one_of_two backend_200 failed_sys cat_png).
  reflexivity.
Defined.

(** What a whole call with a staged file does to the staging and to the
    request log. *)
Lemma handleGenerate_staged_effect (backend : Backend) (w : Sys) (file : File) :
  uploadedFile (state w) = Some file ->
  let w' := after (handleGenerate backend) w in
  uploadedFile (state w') = Some file
  /\ prompt (state w') = prompt (state w)
  /\ network w' = (network w ++ [generate_request file (prompt (state w))])%list.
Proof.
  intros H. cbv zeta. unfold after at 1 2 3.
  rewrite (@handleGenerate_halves backend w file H).
  fold (after (handleGenerate_resume
                 (backend (generate_request file (prompt (state w)))))
          (after handleGenerate_start w)).
  destruct (@handleGenerate_start_staged file w H) as (_ & SS & _ & SN & _).
  cbv zeta in SS, SN.
  settle_cases (backend (generate_request file (prompt (state w))))
               (after handleGenerate_start w);
    rewrite ES, EN, SS, SN; repeat split.
Qed.

(** X9: a call repeated after a completed one, with the prompt edited in
    between, sends the same staged file again with the new prompt: the two
    calls send two requests, and neither the outcome of the first call nor
    an empty prompt stands in the way of the second. *)
Theorem resubmission_sends_same_file
    (b1 b2 : Backend) (v : string) (w : Sys) (file : File) :
  uploadedFile (state w) = Some file ->
  network (run [Generate b1; TypePrompt v; Generate b2] w)
  = (network w ++ [generate_request file (prompt (state w));
                   generate_request file v])%list.
Proof.
  intros H.
  change (run [Generate b1; TypePrompt v; Generate b2] w)
    with (after (handleGenerate b2)
            (after (onPromptChange v) (after (handleGenerate b1) w))).
  destruct (@handleGenerate_staged_effect b1 w file H) as (F1 & _ & N1).
  cbv zeta in F1, N1.
  assert (F2 : uploadedFile
                 (state (after (onPromptChange v) (after (handleGenerate b1) w)))
               = Some file) by exact F1.
  destruct (@handleGenerate_staged_effect b2 _ file F2) as (_ & _ & N2).
  cbv zeta in N2. rewrite N2.
  change (network (after (onPromptChange v) (after (handleGenerate b1) w)))
    with (network (after (handleGenerate b1) w)).
  change (prompt (state (after (onPromptChange v) (after (handleGenerate b1) w))))
    with v.
  rewrite N1, <- app_assoc. reflexivity.
Qed.

Lemma resubmission_sends_same_file_witness :
  network (run [Generate backend_500; TypePrompt ""; Generate backend_200]
             staged_sys)
  = (network staged_sys
     ++ [generate_request cat_png (prompt (state staged_sys));
         generate_request cat_png ""])%list.
Proof.
  apply (@resubmission_sends_same_file backend_500 backend_200 ""
           staged_sys cat_png).
  reflexivity.
Defined.

(** ** What the view shows *)

(** The states the first half of a call commits: two with the loading flag
    on, then the state it ends in. *)
Lemma handleGenerate_start_commits (file : File) (w : Sys) :
  uploadedFile (state w) = Some file ->
  let w' := after handleGenerate_start w in
  exists s1 s2,
    commits w' = (commits w ++ [s1; s2; state w'])%list
    /\ isLoading s1 = true /\ isLoading s2 = true.
Proof.
  intros H. unfold after, handleGenerate_start, bind, closure.
  rewrite H. cbv zeta. unfold setIsLoading, setGeneratedImage, setError,
    set_state, send, ret.
  cbv beta iota zeta delta [snd commits state]. do 2 eexists.
  rewrite <- !app_assoc. split; [reflexivity|]. split; reflexivity.
Qed.

(** The states the second half commits: one with the loading flag as it
    was, then the state it ends in. *)
Lemma handleGenerate_resume_commits (o : Completion Response) (w : Sys) :
  let w' := after (handleGenerate_resume o) w in
  exists s,
    commits w' = (commits w ++ [s; state w'])%list
    /\ isLoading s = isLoading (state w).
Proof.
  unfold after, handleGenerate_resume, try_catch_finally, bind, await.
  destruct o as [r|e];
    [ destruct (ok r); cbn [negb];
      [ unfold ret; destruct (blob r) | destruct (text r) ] | ];
    unfold throw, createObjectURL, console_error, setIsLoading,
      setGeneratedImage, setError, set_state;
    cbv beta iota zeta delta [snd commits state];
    eexists; rewrite <- !app_assoc; (split; [reflexivity|]); reflexivity.
Qed.

(** X10: during a [handleGenerate] call with a file staged, every state
    between the first setter call and the last shows the spinner in the
    result pane and the trigger disabled with the label [Creating...],
    whatever the state before and whatever the backend does; the state the
    call ends in shows the trigger enabled again with the label [Create],
    and no spinner. *)
Theorem spinner_during_generate (backend : Backend) (w : Sys) (file : File) :
  uploadedFile (state w) = Some file ->
  let w' := after (handleGenerate backend) w in
  exists during : list State,
    points (handleGenerate backend) w = (state w :: during ++ [state w'])%list
    /\ length during = 4
    /\ Forall (fun s => result_pane (render s) = SpinnerPane
                        /\ create_disabled (render s) = true
                        /\ create_label (render s) = "Creating...") during
    /\ create_disabled (render (state w')) = false
    /\ create_label (render (state w')) = "Create"
    /\ result_pane (render (state w')) <> SpinnerPane.
Proof.
  intros H. cbv zeta. unfold points.
  assert (E : after (handleGenerate backend) w
              = after (handleGenerate_resume
                         (backend (generate_request file (prompt (state w)))))
                  (after handleGenerate_start w)).
  { unfold after at 1. rewrite (@handleGenerate_halves backend w file H).
    reflexivity. }
  rewrite E. clear E.
  destruct (@handleGenerate_start_commits file w H) as (s1 & s2 & C1 & L1 & L2).
  destruct (@handleGenerate_start_staged file w H) as (_ & SS & _).
  cbv zeta in C1, SS.
  remember (after handleGenerate_start w) as w1 eqn:E1.
  remember (backend (generate_request file (prompt (state w)))) as o eqn:Eo.
  destruct (@handleGenerate_resume_commits o w1) as (s4 & C2 & L4).
  cbv zeta in C2.
  assert (L5 : isLoading (state (after (handleGenerate_resume o) w1)) = false
               /\ uploadedFile (state (after (handleGenerate_resume o) w1))
                  = Some file).
  { settle_cases o w1; rewrite ES, SS; split; reflexivity. }
  destruct L5 as [L5 F5].
  exists [s1; s2; state w1; s4].
  rewrite C2, C1, <- app_assoc, skipn_own_length.
  split; [reflexivity|]. split; [reflexivity|].
  assert (L3 : isLoading (state w1) = true) by (rewrite SS; reflexivity).
  rewrite L3 in L4.
  split.
  - repeat (apply Forall_cons; [|]); try apply Forall_nil;
      unfold render; cbn [result_pane create_disabled create_label];
      first [rewrite L1 | rewrite L2 | rewrite L3 | rewrite L4];
      repeat split.
  - unfold render; cbn [result_pane create_disabled create_label].
    rewrite L5, F5. repeat split.
    destruct (generatedImage _); discriminate.
Qed.

Lemma spinner_during_generate_witness :
  let w' := after (handleGenerate backend_200) staged_sys in
  exists during : list State,
    points (handleGenerate backend_200) staged_sys
    = (state staged_sys :: during ++ [state w'])%list
    /\ length during = 4
    /\ Forall (fun s => result_pane (render s) = SpinnerPane
                        /\ create_disabled (render s) = true
                        /\ create_label (render s) = "Creating...") during
    /\ create_disabled (render (state w')) = false
    /\ create_label (render (state w')) = "Create"
    /\ result_pane (render (state w')) <> SpinnerPane.
Proof.
  apply (@spinner_during_generate backend_200 staged_sys cat_png).
  reflexivity.
Defined.

(** X11: after a rejected candidate the view shows the validation message
    in the banner, the upload controls instead of a preview, and the
    trigger disabled; the result pane is as it was, so a result that was
    shown stays shown beside the banner. *)
Theorem view_after_rejection (c : option File) (w : Sys) :
  accepted c = false ->
  let v := render (state (after (handleFileChange c) w)) in
  banner v = Some "Please upload a valid image file."
  /\ uploader v = UploadControls
  /\ create_disabled v = true
  /\ result_pane v = result_pane (render (state w)).
Proof.
  intros H. cbv zeta.
  destruct (@handleFileChange_rejected c w H) as (_ & ES & _).
  cbv zeta in ES. rewrite ES. unfold render.
  cbn [banner uploader create_disabled result_pane error uploadedImage
       uploadedFile isLoading generatedImage truthy].
  repeat split. apply orb_true_r.
Qed.

Lemma view_after_rejection_witness :
  let w := after (handleGenerate backend_200) staged_sys in
  let v := render (state (after (handleFileChange (Some notes_txt)) w)) in
  banner v = Some "Please upload a valid image file."
  /\ uploader v = UploadControls
  /\ create_disabled v = true
  /\ result_pane v = result_pane (render (state w)).
Proof.
  apply (@view_after_rejection (Some notes_txt)
           (after (handleGenerate backend_200) staged_sys)).
  reflexivity.
Defined.

(** X12: after an accepted candidate the view shows a preview whose URL
    stands for the bytes of that file and no banner; a result shown before
    is gone from the result pane; the prompt field is as it was; and the
    trigger is enabled unless a request is being submitted. *)
Theorem view_after_acceptance (f : File) (w : Sys) :
  accepted (Some f) = true ->
  let w' := after (handleFileChange (Some f)) w in
  let v := render (state w') in
  (exists u, uploader v = PreviewImage u
             /\ resolve w' u = Some (blob_of_file f))
  /\ banner v = None
  /\ result_pane v =
       (if isLoading (state w) then SpinnerPane else PlaceholderText)
  /\ textarea_value v = prompt (state w)
  /\ create_disabled v = isLoading (state w).
Proof.
  intros H. cbv zeta. cbn [accepted] in H.
  destruct (@handleFileChange_accepted f w H) as (_ & ES & EU & _).
  cbv zeta in ES, EU. unfold resolve. rewrite ES, EU. unfold render.
  cbn [banner uploader create_disabled result_pane textarea_value error
       uploadedImage uploadedFile isLoading generatedImage prompt].
  split; [eexists; split; [reflexivity | apply nth_error_snoc]|].
  repeat split. apply orb_false_r.
Qed.

Lemma view_after_acceptance_witness :
  let w := after (handleGenerate backend_200) staged_sys in
  let w' := after (handleFileChange (Some cat_png)) w in
  let v := render (state w') in
  (exists u, uploader v = PreviewImage u
             /\ resolve w' u = Some (blob_of_file cat_png))
  /\ banner v = None
  /\ result_pane v =
       (if isLoading (state w) then SpinnerPane else PlaceholderText)
  /\ textarea_value v = prompt (state w)
  /\ create_disabled v = isLoading (state w).
Proof.
  apply (@view_after_acceptance cat_png
           (after (handleGenerate backend_200) staged_sys)).
  reflexivity.
Defined.

(** An enabled trigger: nothing is being submitted and a file is staged. *)
Lemma create_enabled (s : State) :
  create_disabled (render s) = false ->
  isLoading s = false /\ exists file, uploadedFile s = Some file.
Proof.
  unfold render; cbn [create_disabled]. intros H.
  apply orb_false_iff in H. destruct H as [HL HF]. split; [exact HL|].
  destruct (uploadedFile s) as [file|]; [exists file; reflexivity | discriminate].
Qed.

(** X13: a trigger that is enabled has a staged file behind it: pressing it
    sends exactly one request, for that file and the prompt in the field,
    and disables the trigger; whatever the network then answers, the
    trigger is enabled again once the call has resumed. *)
Theorem enabled_trigger_sends (w : Sys) :
  create_disabled (render (state w)) = false ->
  let w1 := after handleGenerate_start w in
  exists file,
    uploadedFile (state w) = Some file
    /\ network w1 =
         (network w ++ [generate_request file (textarea_value (render (state w)))])%list
    /\ create_disabled (render (state w1)) = true
    /\ forall o,
         create_disabled (render (state (after (handleGenerate_resume o) w1)))
         = false.
Proof.
  intros H. cbv zeta. destruct (create_enabled _ H) as [_ [file U]].
  exists file. split; [exact U|].
  destruct (@handleGenerate_start_staged file w U) as (_ & SS & _ & SN & _).
  cbv zeta in SS, SN. split; [exact SN|]. split.
  - rewrite SS. reflexivity.
  - intros o. settle_cases o (after handleGenerate_start w);
      rewrite ES, SS; reflexivity.
Qed.

Lemma enabled_trigger_sends_witness :
  let w1 := after handleGenerate_start staged_sys in
  exists file,
    uploadedFile (state staged_sys) = Some file
    /\ network w1 =
         (network staged_sys
          ++ [generate_request file
                (textarea_value (render (state staged_sys)))])%list
    /\ create_disabled (render (state w1)) = true
    /\ forall o,
         create_disabled (render (state (after (handleGenerate_resume o) w1)))
         = false.
Proof.
  apply (enabled_trigger_sends staged_sys). reflexivity.
Defined.

(** ** The page driven through its controls *)

(** The loading flag and the guard's message across a file intake. *)
Lemma handleFileChange_keeps_loading (c : option File) (w : Sys) :
  isLoading (state (after (handleFileChange c) w)) = isLoading (state w)
  /\ error (state (after (handleFileChange c) w))
     <> Some "Please upload an image first!".
Proof.
  intake_cases c w; rewrite ES; split; try reflexivity; discriminate.
Qed.

(** Starting a call with a file staged puts one more request in flight. *)
Lemma react_click_staged (l : Live) (file : File) :
  uploadedFile (state (sys l)) = Some file ->
  react Click l
  = {| sys := after handleGenerate_start (sys l); pending := S (pending l) |}.
Proof.
  intros U.
  destruct (@handleGenerate_start_staged file (sys l) U) as (EK & _).
  unfold react, completion, after in *.
  destruct (handleGenerate_start (sys l)) as [k w1]. cbn [fst snd] in *.
  rewrite EK. reflexivity.
Qed.

Lemma ui_react_controlled (g : Gesture) (l : Live) :
  controlled l -> controlled (ui_react g l).
Proof.
  intros [HP HE]. unfold ui_react.
  destruct (offered l g) eqn:HO; [|split; assumption].
  unfold controlled.
  destruct g as [e|e|files| | | |v|o];
    try (cbn [sys pending]; rewrite after_gesture_handler).
  - split; assumption.
  - destruct (dataTransfer_files e) as [|f files]; [split; assumption|].
    destruct (handleFileChange_keeps_loading (Some f) (sys l)) as [EL EE].
    rewrite EL. split; assumption.
  - destruct (handleFileChange_keeps_loading (hd_error files) (sys l)) as [EL EE].
    rewrite EL. split; assumption.
  - split; assumption.
  - (* the trigger is pressed: it was enabled *)
    unfold offered in HO. apply negb_true_iff in HO.
    destruct (create_enabled _ HO) as [HL [file U]].
    destruct HP as [[P0 _] | [_ HT]]; [|rewrite HL in HT; discriminate HT].
    destruct (@handleGenerate_start_staged file (sys l) U) as (_ & ES & _).
    cbv zeta in ES.
    rewrite (@react_click_staged l file U). cbn [sys pending].
    rewrite P0, ES. cbn [isLoading error].
    split; [right; split; reflexivity | discriminate].
  - split; [exact HP | discriminate].
  - split; assumption.
  - (* the network answers: a request was in flight *)
    unfold offered in HO. unfold react.
    destruct (pending l) as [|n] eqn:P; [discriminate HO|].
    destruct HP as [[HP _] | [HP HL]]; [discriminate HP|].
    injection HP as ->. cbn [pending sys].
    settle_cases o (sys l); rewrite ES; cbn [isLoading error];
      (split; [left; split; reflexivity|]); [exact HE | discriminate].
Qed.

(** X14: when the page is driven through the controls it offers, from the
    initial state and whatever the network answers, at most one request is
    in flight at any time, one is in flight exactly when the loading flag
    is on, and the message of [handleGenerate]'s guard against a missing
    file is never shown: the disabled trigger keeps the guard from being
    reached. *)
Theorem through_the_controls (gs : list Gesture) :
  let l := ui_play gs initial_live in
  pending l <= 1
  /\ (pending l = 1 <-> isLoading (state (sys l)) = true)
  /\ error (state (sys l)) <> Some "Please upload an image first!".
Proof.
  assert (G : forall l, controlled l -> controlled (ui_play gs l)).
  { induction gs as [|g gs IH]; intros l H; [exact H|].
    change (ui_play (g :: gs) l) with (ui_play gs (ui_react g l)).
    apply IH. apply ui_react_controlled. exact H. }
  assert (H0 : controlled initial_live).
  { split; [left; split; reflexivity | discriminate]. }
  destruct (G initial_live H0) as [[[HP HL] | [HP HL]] HE]; cbv zeta.
  - rewrite HP, HL. repeat split; auto; discriminate.
  - rewrite HP, HL. repeat split; auto.
Qed.

(** X15: no handler the view offers throws.  In every state, a gesture on
    a control that is rendered and enabled, and the settling of a request
    in flight, complete normally: the browse button is there only when the
    file input it clicks is mounted, and every failure of the request ends
    in the [catch]. *)
Theorem offered_gestures_do_not_throw (g : Gesture) (l : Live) :
  offered l g = true ->
  completion (gesture_handler g) (sys l) = Normal tt.
Proof.
  intros HO. destruct g as [e|e|files| | | |v|o]; cbn [gesture_handler].
  - reflexivity.
  - apply completion_then_ret with (preventDefault e).
    unfold handleDropEvent; cbv zeta. apply completion_then_ret with tt.
    destruct e as [[|f files] d];
      cbn [preventDefault dataTransfer_files handleDrop].
    + reflexivity.
    + apply handleFileChange_completes.
  - apply handleFileChange_completes.
  - unfold offered in HO. unfold completion, onBrowseClick, bind, closure.
    destruct (uploader (render (state (sys l)))); [discriminate HO|reflexivity].
  - start_cases (sys l);
      [apply completion_then_ret with (Some (generate_request file (prompt (state (sys l)))))
      |apply completion_then_ret with (@None Request)]; exact EK.
  - reflexivity.
  - reflexivity.
  - settle_cases o (sys l); exact EK.
Qed.

Lemma offered_gestures_do_not_throw_witness :
  completion (gesture_handler (Respond (backend_down (generate_request cat_png ""))))
    (sys (ui_play [Drop {| dataTransfer_files := [cat_png];
                           defaultPrevented := false |};
                   PressCreate] initial_live))
  = Normal tt.
Proof.
  apply (offered_gestures_do_not_throw
           (Respond (backend_down (generate_request cat_png "")))
           (ui_play [Drop {| dataTransfer_files := [cat_png];
                             defaultPrevented := false |};
                     PressCreate] initial_live)).
  reflexivity.
Defined.

(** ** Requests in flight, under the discipline *)

Lemma result_xor_error_under_discipline_witness :
  result_xor_error
    (state (sys (play [Intake (Some cat_png); Click; Typing "ghibli";
                       Intake (Some cat_png); Close;
                       Settle (backend_500 (generate_request cat_png ""));
                       Click;
                       Settle (backend_200 (generate_request cat_png "ghibli"))]
                   initial_live))).
Proof.
  apply (result_xor_error_under_discipline
           [Intake (Some cat_png); Click; Typing "ghibli";
            Intake (Some cat_png); Close;
            Settle (backend_500 (generate_request cat_png ""));
            Click;
            Settle (backend_200 (generate_request cat_png "ghibli"))]).
  reflexivity.
Defined.

(** X16: a request in flight is not cancelled when the staged file is
    replaced.  Press the trigger with one file staged, stage another image
    before the network answers, and the answer is applied all the same: one
    request went out, for the first file, and its blob becomes the result
    beside the staging of the second file. *)
Theorem response_applied_after_file_replaced
    (w : Sys) (file other : File) (r : Response) (b : Blob) :
  uploadedFile (state w) = Some file ->
  String.prefix "image/" (type other) = true ->
  ok r = true ->
  blob r = Normal b ->
  let l := play [Click; Intake (Some other); Settle (Normal r)]
             {| sys := w; pending := 0 |} in
  network (sys l) = (network w ++ [generate_request file (prompt (state w))])%list
  /\ uploadedFile (state (sys l)) = Some other
  /\ (exists u, uploadedImage (state (sys l)) = Some u
                /\ resolve (sys l) u = Some (blob_of_file other))
  /\ (exists u, generatedImage (state (sys l)) = Some u
                /\ resolve (sys l) u = Some b)
  /\ isLoading (state (sys l)) = false
  /\ pending l = 0.
Proof.
  intros H HA HO HB. cbv zeta.
  destruct (@handleGenerate_start_staged file w H) as (K1 & S1 & U1 & N1 & _).
  cbv zeta in K1, S1, U1, N1.
  set (w1 := after handleGenerate_start w) in *.
  destruct (@handleFileChange_accepted other w1 HA) as (_ & S2 & U2 & N2 & _).
  cbv zeta in S2, U2, N2.
  set (w2 := after (handleFileChange (Some other)) w1) in *.
  destruct (@handleGenerate_resume_success r b w2 HO HB) as (_ & S3 & U3 & N3 & _).
  cbv zeta in S3, U3, N3.
  set (w3 := after (handleGenerate_resume (Normal r)) w2) in *.
  assert (E : play [Click; Intake (Some other); Settle (Normal r)]
                {| sys := w; pending := 0 |}
              = {| sys := w3; pending := 0 |}).
  { unfold play, fold_left.
    rewrite (@react_click_staged {| sys := w; pending := 0 |} file H).
    reflexivity. }
  rewrite E. cbn [sys pending]. unfold resolve.
  rewrite S3, U3, N3, S2, U2, N2, N1, U1.
  cbn [uploadedFile uploadedImage generatedImage isLoading].
  split; [reflexivity|]. split; [reflexivity|]. split; [|split].
  - eexists. split; [reflexivity|].
    apply nth_error_app_left. apply nth_error_snoc.
  - eexists. split; [reflexivity|]. apply nth_error_snoc.
  - split; reflexivity.
Qed.

Lemma response_applied_after_file_replaced_witness :
  let r := {| status := 200; text := Normal ""; blob := Normal payload |} in
  let other := {| name := "dog.jpg"; type := "image/jpeg"; bytes := [Byte.xff] |} in
  let l := play [Click; Intake (Some other); Settle (Normal r)]
             {| sys := staged_sys; pending := 0 |} in
  network (sys l)
  = (network staged_sys
     ++ [generate_request cat_png (prompt (state staged_sys))])%list
  /\ uploadedFile (state (sys l)) = Some other
  /\ (exists u, uploadedImage (state (sys l)) = Some u
                /\ resolve (sys l) u = Some (blob_of_file other))
  /\ (exists u, generatedImage (state (sys l)) = Some u
                /\ resolve (sys l) u = Some payload)
  /\ isLoading (state (sys l)) = false
  /\ pending l = 0.
Proof.
  apply (@response_applied_after_file_replaced staged_sys cat_png
           {| name := "dog.jpg"; type := "image/jpeg"; bytes := [Byte.xff] |}
           {| status := 200; text := Normal ""; blob := Normal payload |}
           payload);
    reflexivity.
Defined.
